(** * A shallow embedding of the watchcow container-lifecycle controller,
    package generator, configuration store and redirect resolver.

    Go strings are modelled as [String.string] (byte strings); Go maps
    [map[string]string] as stdpp's [gmap string string].  Go's iteration
    over a map visits its entries in an unspecified order: wherever the
    source ranges over a map, the embedding takes the visiting order as
    an explicit list [it] together with the fact [go_range m it] that it
    is a permutation of the map's entries. *)

From stdpp Require Import base gmap strings list sorting pretty.
From Stdlib Require Import Ascii.

Open Scope string_scope.
Open Scope list_scope.

(* ------------------------------------------------------------------ *)
(** ** Go runtime helpers *)

Module Go.

(** [m[k]] on a [map[string]string]: the zero value [""] when absent. *)
Definition index (m : gmap string string) (k : string) : string :=
  default "" (m !! k).

(** [for k, v := range m] visits the entries in the order [it]. *)
Definition go_range (m : gmap string string) (it : list (string * string)) : Prop :=
  it ≡ₚ map_to_list m.

(** strings.HasPrefix *)
Fixpoint hasPrefix (s p : string) : bool :=
  match p, s with
  | EmptyString, _ => true
  | String c p', String d s' => if Ascii.eqb c d then hasPrefix s' p' else false
  | String _ _, EmptyString => false
  end.

(** strings.TrimPrefix *)
Fixpoint trimPrefix (s p : string) : string :=
  match p, s with
  | EmptyString, _ => s
  | String c p', String d s' => if Ascii.eqb c d then trimPrefix s' p' else s
  | String _ _, EmptyString => s
  end.

(** strings.Cut with a one-byte separator: the text before the first
    [sep], the text after it, and whether [sep] occurs. *)
Fixpoint cutc (s : string) (sep : ascii) : string * string * bool :=
  match s with
  | EmptyString => (s, "", false)
  | String c s' =>
      if Ascii.eqb c sep then ("", s', true)
      else let '(b, a, f) := cutc s' sep in (String c b, a, f)
  end.

(** strings.SplitN(s, sep, 2) with a one-byte separator. *)
Definition splitN2 (s : string) (sep : ascii) : list string :=
  let '(b, a, f) := cutc s sep in if f then [b; a] else [s].

(** strings.SplitN(s, sep, 3) with a one-byte separator. *)
Definition splitN3 (s : string) (sep : ascii) : list string :=
  let '(b, a, f) := cutc s sep in
  if f then b :: splitN2 a sep else [s].

(** strings.Join *)
Fixpoint join (elems : list string) (sep : string) : string :=
  match elems with
  | [] => ""
  | [x] => x
  | x :: rest => x +:+ sep +:+ join rest sep
  end.

(** Does byte [c] occur in [s]? *)
Fixpoint hasChar (s : string) (c : ascii) : bool :=
  match s with
  | EmptyString => false
  | String d s' => Ascii.eqb c d || hasChar s' c
  end.

End Go.

Import Go.

(* ------------------------------------------------------------------ *)
(** ** internal/docker/monitor.go : adoption by labels *)

Module Monitor.

(** shouldInstall *)
Definition shouldInstall (labels : gmap string string) : bool :=
  if negb (String.eqb (index labels "watchcow.enable") "true") then false
  else
    let installMode := index labels "watchcow.install" in
    String.eqb installMode "fnos" || String.eqb installMode "true"
    || String.eqb installMode "".

End Monitor.

(* ------------------------------------------------------------------ *)
(** ** Container keys: server.NewContainerKey and docker.makeContainerKey *)

Module Key.

(** sort.Strings: Go sorts by byte-wise lexicographic order; a sort by a
    total antisymmetric order has a unique result, computed here by
    stdpp's merge sort on [String.le]. *)
Definition sortStrings (l : list string) : list string := merge_sort String.le l.

(** fmt.Sprintf("%s:%s", containerPort, hostPort) over the visiting order. *)
Fixpoint portPairs (it : list (string * string)) : list string :=
  match it with
  | [] => []
  | (containerPort, hostPort) :: rest =>
      (containerPort +:+ ":" +:+ hostPort) :: portPairs rest
  end.

(** docker.makeContainerKey (monitor.go), the map visited in order [it]. *)
Definition makeContainerKey (image : string) (ports : gmap string string)
    (it : list (string * string)) : string :=
  if decide (size ports = 0) then image +:+ "|"
  else image +:+ "|" +:+ join (sortStrings (portPairs it)) ",".

(** server.NewContainerKey (the server's types file), visited in order [it]. *)
Definition NewContainerKey (image : string) (ports : gmap string string)
    (it : list (string * string)) : string :=
  if decide (size ports = 0) then image +:+ "|"
  else image +:+ "|" +:+ join (sortStrings (portPairs it)) ",".

(** The ordering the spec describes: port pairs ordered by the sequence
    of container ports (here: container ports compared as strings). *)
Definition keyByContainerPortOrder (image : string) (ports : gmap string string) : string :=
  image +:+ "|" +:+
    join (portPairs (merge_sort (fun p q : string * string => String.le p.1 q.1)
                                 (map_to_list ports))) ",".

End Key.

(* ------------------------------------------------------------------ *)
(** ** internal/app : the App model and the registry *)

Module AppModel.

(** EntryControl *)
Record EntryControl := mkEntryControl {
  AccessPerm : string;
  PortPerm : string;
  PathPerm : string
}.

(** Entry (app.Entry; fpkgen.Entry has the same fields). *)
Record Entry := mkEntry {
  eName : string;
  eTitle : string;
  eProtocol : string;
  ePort : string;
  ePath : string;
  eUIType : string;
  eAllUsers : bool;
  eIcon : string;
  eFileTypes : list string;
  eNoDisplay : bool;
  eControl : option EntryControl;
  eRedirect : string
}.

(** VolumeMapping *)
Record VolumeMapping := mkVolumeMapping {
  vSource : string;
  vDestination : string;
  vReadOnly : bool;
  vType : string
}.

(** App *)
Record App := mkApp {
  aAppName : string;
  aVersion : string;
  aDisplayName : string;
  aDescription : string;
  aMaintainer : string;
  aContainerID : string;
  aContainerName : string;
  aImage : string;
  aProtocol : string;
  aPort : string;
  aPath : string;
  aUIType : string;
  aAllUsers : bool;
  aEntries : list Entry;
  aVolumes : list VolumeMapping;
  aEnvironment : list string;
  aIcon : string;
  aRestartPolicy : string;
  aLabels : gmap string string;
  aStatus : string
}.

(** App.GetEntry: the first entry with the given name. *)
Fixpoint getEntryIn (entries : list Entry) (name : string) : option Entry :=
  match entries with
  | [] => None
  | e :: rest => if String.eqb (eName e) name then Some e else getEntryIn rest name
  end.

Definition GetEntry (a : App) (name : string) : option Entry := getEntryIn (aEntries a) name.

(** Registry: a map from app name to app ([sync.Map]). *)
Abbreviation Registry := (gmap string App).

Definition Register (a : App) (r : Registry) : Registry := <[aAppName a := a]> r.
Definition Unregister (appName : string) (r : Registry) : Registry := delete appName r.
Definition Get (r : Registry) (appName : string) : option App := r !! appName.

End AppModel.

(* ------------------------------------------------------------------ *)
(** ** internal/docker/monitor.go : controller state and operations *)

Module MonitorState.
Import AppModel.

(** docker.StoredEntry *)
Record StoredEntry := mkStoredEntry {
  seName : string;
  seTitle : string;
  seProtocol : string;
  sePort : string;
  sePath : string;
  seUIType : string;
  seAllUsers : bool;
  seFileTypes : list string;
  seNoDisplay : bool;
  seRedirect : string;
  seIconBase64 : string
}.

(** docker.StoredConfig *)
Record StoredConfig := mkStoredConfig {
  scAppName : string;
  scDisplayName : string;
  scDescription : string;
  scVersion : string;
  scMaintainer : string;
  scEntries : list StoredEntry;
  scIconBase64 : string
}.

(** AppOperation (the result channel is never used by the modelled paths). *)
Record AppOperation := mkAppOperation {
  opType : string;
  opAppName : string;
  opAppDir : string;
  opContainerID : string;
  opContainerName : string;
  opLabels : gmap string string;
  opStoredConfig : option StoredConfig
}.

(** ContainerState *)
Record ContainerState := mkContainerState {
  csContainerID : string;
  csContainerName : string;
  csImage : string;
  csState : string;
  csPorts : gmap string string;
  csLabels : gmap string string;
  csNetworkMode : string;
  csAppName : string;
  csInstalled : bool
}.

(** The Monitor's mutable state: the container map, the app registry,
    the bounded operation queue, the installer (the path of the
    appcenter-cli binary, [None] when it was not found) and the log of
    appcenter-cli invocations (each one the argument vector). *)
Record Monitor := mkMonitor {
  containers : gmap string ContainerState;
  registry : Registry;
  opQueue : list AppOperation;
  installer : option string;
  cliLog : list (list string)
}.

Definition setContainers (c : gmap string ContainerState) (m : Monitor) : Monitor :=
  mkMonitor c (registry m) (opQueue m) (installer m) (cliLog m).
Definition setRegistry (r : Registry) (m : Monitor) : Monitor :=
  mkMonitor (containers m) r (opQueue m) (installer m) (cliLog m).
Definition setOpQueue (q : list AppOperation) (m : Monitor) : Monitor :=
  mkMonitor (containers m) (registry m) q (installer m) (cliLog m).
Definition runCLI (args : list string) (m : Monitor) : Monitor :=
  mkMonitor (containers m) (registry m) (opQueue m) (installer m) (cliLog m ++ [args]).

(** make(chan *AppOperation, 100) *)
Definition opQueueCap : nat := 100.

(** Installer.Uninstall: runs [stop], then [uninstall]; an [uninstall]
    failure is only logged, the result is always nil. *)
Definition installerUninstall (appName : string) (m : Monitor) : Monitor * option string :=
  (runCLI ["uninstall"; appName] (runCLI ["stop"; appName] m), None).

(** Installer.StopApp *)
Definition installerStopApp (appName : string) (m : Monitor) : Monitor :=
  runCLI ["stop"; appName] m.

(** queueOperation: a non-blocking send on the bounded channel; a full
    queue drops the operation (with a warning). *)
Definition queueOperation (op : AppOperation) (m : Monitor) : Monitor :=
  if decide (length (opQueue m) < opQueueCap) then setOpQueue (opQueue m ++ [op]) m
  else m.

(** processStop *)
Definition processStop (op : AppOperation) (m : Monitor) : Monitor :=
  match containers m !! opContainerID op with
  | None => m
  | Some state =>
      if negb (csInstalled state) then m
      else match installer m with
           | Some _ => installerStopApp (csAppName state) m
           | None => m
           end
  end.

(** processDestroy *)
Definition processDestroy (op : AppOperation) (m : Monitor) : Monitor :=
  match containers m !! opContainerID op with
  | None => m
  | Some state =>
      let appName := csAppName state in
      let wasInstalled := csInstalled state in
      let m1 := setContainers (delete (opContainerID op) (containers m)) m in
      let m2 := setRegistry (Unregister appName (registry m1)) m1 in
      if wasInstalled && bool_decide (is_Some (installer m2))
      then fst (installerUninstall appName m2)
      else m2
  end.

(** Monitor.TriggerInstall *)
Definition TriggerInstall (containerID : string) (storedConfig : StoredConfig)
    (m : Monitor) : Monitor :=
  match containers m !! containerID with
  | None => m
  | Some state =>
      if negb (String.eqb (csState state) "running") then m
      else if csInstalled state then m
      else queueOperation
             {| opType := "dashboard_install";
                opAppName := "";
                opAppDir := "";
                opContainerID := containerID;
                opContainerName := csContainerName state;
                opLabels := csLabels state;
                opStoredConfig := Some storedConfig |} m
  end.

End MonitorState.

(* ------------------------------------------------------------------ *)
(** ** internal/fpkgen/generator.go : app names and entry parsing

    Strings are byte strings.  Docker container names match
    [[a-zA-Z0-9][a-zA-Z0-9_.-]*], so strings.ToLower and strings.TrimSpace
    are modelled on ASCII (the branch Go takes for ASCII input). *)

Module Generator.
Import AppModel.

Definition code (c : ascii) : nat := nat_of_ascii c.

(** unicode.ToLower restricted to ASCII: 'A'..'Z' become 'a'..'z'. *)
Definition lowerAscii (c : ascii) : ascii :=
  if (Nat.leb 65 (code c)) && (Nat.leb (code c) 90) then ascii_of_nat (code c + 32) else c.

(** strings.ToLower *)
Fixpoint toLower (s : string) : string :=
  match s with
  | EmptyString => EmptyString
  | String c s' => String (lowerAscii c) (toLower s')
  end.

(** strings.ReplaceAll with one-byte old and new strings. *)
Fixpoint replaceAllc (s : string) (old new : ascii) : string :=
  match s with
  | EmptyString => EmptyString
  | String c s' => String (if Ascii.eqb c old then new else c) (replaceAllc s' old new)
  end.

(** The test in sanitizeAppName's loop: [a-z], [0-9] or '-'. *)
Definition appNameChar (c : ascii) : bool :=
  ((Nat.leb 97 (code c)) && (Nat.leb (code c) 122)) || ((Nat.leb 48 (code c)) && (Nat.leb (code c) 57))
  || Ascii.eqb c "-".

(** The loop writing only the accepted runes to the builder. *)
Fixpoint keepAppNameChars (s : string) : string :=
  match s with
  | EmptyString => EmptyString
  | String c s' =>
      if appNameChar c then String c (keepAppNameChars s') else keepAppNameChars s'
  end.

(** sanitizeAppName *)
Definition sanitizeAppName (name : string) : string :=
  let name := toLower name in
  let name := replaceAllc name "_" "-" in
  keepAppNameChars name.

(** getLabel: the label when present and non-empty, else the fallback. *)
Definition getLabel (labels : gmap string string) (key fallback : string) : string :=
  match labels !! key with
  | Some v => if String.eqb v "" then fallback else v
  | None => fallback
  end.

(** The app name chosen by extractConfig for a container whose
    inspected name is [containerName] (Docker reports it as "/name"). *)
Definition extractAppName (labels : gmap string string) (containerName : string) : string :=
  let name := trimPrefix containerName "/" in
  let sanitizedName := sanitizeAppName name in
  getLabel labels "watchcow.appname" ("watchcow." +:+ sanitizedName).

(** The spec's description of the sanitization: lowercase, then replace
    each maximal run of characters outside [a-z0-9-] by one "-". *)
Fixpoint replaceRuns (inRun : bool) (s : string) : string :=
  match s with
  | EmptyString => EmptyString
  | String c s' =>
      if appNameChar c then String c (replaceRuns false s')
      else if inRun then replaceRuns true s' else String "-" (replaceRuns true s')
  end.

Definition sanitizeBySpec (name : string) : string := replaceRuns false (toLower name).

End Generator.

(* ------------------------------------------------------------------ *)
(** ** net/url.Parse, the part parseRedirectHost relies on

    Modelled from Go's net/url: fragment cut, control-byte check,
    getScheme, the query cut (with ForceQuery), the opaque form, the
    authority split, parseAuthority/parseHost with the port check, and
    percent-decoding of the path, fragment and userinfo.  Two parts are
    simplified: a host containing '%' is rejected (Go accepts some
    escapes there), and a bracketed IPv6 host is checked only for its
    closing ']' and its optional port. *)

Module URL.

Record URL := mkURL {
  Scheme : string;
  Opaque : string;
  Host : string;
  Path : string;
  RawQuery : string;
  Fragment : string;
  ForceQuery : bool
}.

Definition isAlpha (c : ascii) : bool :=
  (Nat.leb 97 (nat_of_ascii c) && Nat.leb (nat_of_ascii c) 122)
  || (Nat.leb 65 (nat_of_ascii c) && Nat.leb (nat_of_ascii c) 90).
Definition isDigit (c : ascii) : bool :=
  Nat.leb 48 (nat_of_ascii c) && Nat.leb (nat_of_ascii c) 57.
Definition isAlnum (c : ascii) : bool := isAlpha c || isDigit c.

Definition inSet (c : ascii) (set : string) : bool := hasChar set c.

Fixpoint allChars (p : ascii -> bool) (s : string) : bool :=
  match s with
  | EmptyString => true
  | String c s' => p c && allChars p s'
  end.

(** stringContainsCTLByte *)
Definition stringContainsCTLByte (s : string) : bool :=
  negb (allChars (fun c => Nat.leb 32 (nat_of_ascii c) && negb (Nat.eqb (nat_of_ascii c) 127)) s).

(** getScheme: [Some (scheme, rest)], or [None] for "missing protocol scheme". *)
Fixpoint getSchemeGo (i : nat) (acc rawURL s : string) : option (string * string) :=
  match s with
  | EmptyString => Some ("", rawURL)
  | String c s' =>
      if isAlpha c then getSchemeGo (S i) (acc +:+ String c "") rawURL s'
      else if isDigit c || inSet c "+-." then
        (if Nat.eqb i 0 then Some ("", rawURL) else getSchemeGo (S i) (acc +:+ String c "") rawURL s')
      else if Ascii.eqb c ":" then
        (if Nat.eqb i 0 then None else Some (acc, s'))
      else Some ("", rawURL)
  end.

Definition getScheme (rawURL : string) : option (string * string) :=
  getSchemeGo 0 "" rawURL rawURL.

Definition unhex (c : ascii) : option nat :=
  let n := nat_of_ascii c in
  if isDigit c then Some (n - 48)
  else if Nat.leb 97 n && Nat.leb n 102 then Some (n - 87)
  else if Nat.leb 65 n && Nat.leb n 70 then Some (n - 55)
  else None.

(** unescape for the path, fragment and userinfo modes: "%XX" is decoded,
    a '%' not followed by two hex digits is an error. *)
Fixpoint unescapePct (s : string) : option string :=
  match s with
  | EmptyString => Some EmptyString
  | String "%" (String h (String l s')) =>
      match unhex h, unhex l, unescapePct s' with
      | Some a, Some b, Some r => Some (String (ascii_of_nat (16 * a + b)) r)
      | _, _, _ => None
      end
  | String "%" _ => None
  | String c s' => option_map (String c) (unescapePct s')
  end.

(** The byte index of the last occurrence of [c] in [s]. *)
Fixpoint lastIndexGo (s : string) (c : ascii) (i : nat) (acc : option nat) : option nat :=
  match s with
  | EmptyString => acc
  | String d s' => lastIndexGo s' c (S i) (if Ascii.eqb c d then Some i else acc)
  end.
Definition lastIndex (s : string) (c : ascii) : option nat := lastIndexGo s c 0 None.

(** validOptionalPort *)
Definition validOptionalPort (port : string) : bool :=
  match port with
  | EmptyString => true
  | String ":" digits => allChars isDigit digits
  | String _ _ => false
  end.

(** Bytes that may appear unescaped in a host (shouldEscape in
    encodeHost mode returns false, or the byte is not ASCII). *)
Definition hostChar (c : ascii) : bool :=
  isAlnum c || inSet c "-_.~!$&'()*+,;=:[]<>" || Nat.eqb (nat_of_ascii c) 34
  || Nat.leb 128 (nat_of_ascii c).

(** parseHost *)
Definition parseHost (host : string) : option string :=
  let portOk :=
    match host with
    | String "[" _ =>
        match lastIndex host "]" with
        | None => false
        | Some i => validOptionalPort (String.substring (S i) (String.length host) host)
        end
    | _ =>
        match lastIndex host ":" with
        | None => true
        | Some i => validOptionalPort (String.substring i (String.length host) host)
        end
    end in
  if portOk && allChars hostChar host then Some host else None.

(** validUserinfo *)
Definition validUserinfo (s : string) : bool :=
  allChars (fun c => isAlnum c || inSet c "-._:~!$&'()*+,;=%@") s.

(** parseAuthority: the host, or an error. *)
Definition parseAuthority (authority : string) : option string :=
  match lastIndex authority "@" with
  | None => parseHost authority
  | Some i =>
      match parseHost (String.substring (S i) (String.length authority) authority) with
      | None => None
      | Some host =>
          let userinfo := String.substring 0 i authority in
          if validUserinfo userinfo then
            match unescapePct userinfo with Some _ => Some host | None => None end
          else None
      end
  end.

Fixpoint countChar (s : string) (c : ascii) : nat :=
  match s with
  | EmptyString => 0
  | String d s' => (if Ascii.eqb c d then 1 else 0) + countChar s' c
  end.

Fixpoint hasSuffixQ (s : string) : bool :=
  match s with
  | EmptyString => false
  | String "?" EmptyString => true
  | String _ s' => hasSuffixQ s'
  end.

Fixpoint dropLast (s : string) : string :=
  match s with
  | EmptyString | String _ EmptyString => EmptyString
  | String c s' => String c (dropLast s')
  end.

(** parse(rawURL, viaRequest = false) *)
Definition parse (rawURL : string) : option URL :=
  if stringContainsCTLByte rawURL then None else
  if String.eqb rawURL "*" then Some (mkURL "" "" "" "*" "" "" false) else
  match getScheme rawURL with
  | None => None
  | Some (scheme0, rest0) =>
      let scheme := Generator.toLower scheme0 in
      let '(rest1, rawQuery, forceQuery) :=
        if hasSuffixQ rest0 && Nat.eqb (countChar rest0 "?") 1
        then (dropLast rest0, "", true)
        else let '(b, a, _) := cutc rest0 "?" in (b, a, false) in
      if negb (hasPrefix rest1 "/") && negb (String.eqb scheme "") then
        Some (mkURL scheme rest1 "" "" rawQuery "" forceQuery)
      else if negb (hasPrefix rest1 "/") &&
              hasChar (let '(seg, _, _) := cutc rest1 "/" in seg) ":" then None
      else
      let hostAndRest :=
        if (negb (String.eqb scheme "") || negb (hasPrefix rest1 "///"))
           && hasPrefix rest1 "//" then
          let authority0 := String.substring 2 (String.length rest1) rest1 in
          let '(authority, rest2) :=
            match cutc authority0 "/" with
            | (a, r, true) => (a, String "/" r)
            | (a, _, false) => (a, "")
            end in
          option_map (fun h => (h, rest2)) (parseAuthority authority)
        else Some ("", rest1) in
      match hostAndRest with
      | None => None
      | Some (host, rest) =>
          match unescapePct rest with
          | None => None
          | Some path => Some (mkURL scheme "" host path rawQuery "" forceQuery)
          end
      end
  end.

(** url.Parse: cut off the fragment, parse, then set the fragment. *)
Definition Parse (rawURL : string) : option URL :=
  let '(u, frag, _) := cutc rawURL "#" in
  match parse u with
  | None => None
  | Some url =>
      if String.eqb frag "" then Some url
      else match unescapePct frag with
           | None => None
           | Some f => Some (mkURL (Scheme url) (Opaque url) (Host url) (Path url)
                                   (RawQuery url) f (ForceQuery url))
           end
  end.

End URL.

(* ------------------------------------------------------------------ *)
(** ** The redirect resolver (RedirectHandler) *)

Module Redirect.
Import AppModel.

(** The character classes of validQueryStringPattern. *)
Definition keyChar (c : ascii) : bool := URL.isAlnum c || URL.inSet c "_~.%-".
Definition valueChar (c : ascii) : bool := keyChar c || Ascii.eqb c "/".

(** strings.Split with a one-byte separator. *)
Fixpoint splitAllGo (s : string) (sep : ascii) (cur : string) : list string :=
  match s with
  | EmptyString => [cur]
  | String c s' =>
      if Ascii.eqb c sep then cur :: splitAllGo s' sep ""
      else splitAllGo s' sep (cur +:+ String c "")
  end.
Definition splitAll (s : string) (sep : ascii) : list string := splitAllGo s sep "".

(** One [key=value] pair of the pattern. *)
Definition validPair (seg : string) : bool :=
  let '(k, v, found) := cutc seg "=" in
  found && negb (String.eqb k "") && URL.allChars keyChar k && URL.allChars valueChar v.

(** validQueryStringPattern.MatchString: the pattern is an optional
    list of pairs [K]+ '=' [V]-star separated by '&', where neither
    class contains '&' or '='; so a string matches iff it is empty or
    each '&'-separated segment is one pair. *)
Definition validQueryString (qs : string) : bool :=
  String.eqb qs "" || forallb validPair (splitAll qs "&").

(** sanitizeQueryString *)
Definition sanitizeQueryString (qs : string) : string :=
  if validQueryString qs then qs else "".

(** parsedRedirect *)
Record parsedRedirect := mkParsedRedirect {
  Base : string;
  PathP : string;
  Query : string
}.

(** parseRedirectHost *)
Definition parseRedirectHost (host : string) : parsedRedirect :=
  let hasScheme := hasPrefix host "http://" || hasPrefix host "https://" in
  let urlStr := if hasScheme then host else "http://" +:+ host in
  match URL.Parse urlStr with
  | None => mkParsedRedirect host "" ""
  | Some u =>
      let base := if hasScheme then URL.Scheme u +:+ "://" +:+ URL.Host u else URL.Host u in
      mkParsedRedirect base (URL.Path u) (sanitizeQueryString (URL.RawQuery u))
  end.

(** redirectTemplateData (the embedded CSS is left out). *)
Record redirectTemplateData := mkRedirectTemplateData {
  RedirectBase : string;
  RedirectPath : string;
  RedirectQuery : string;
  ContainerPort : string;
  ReqPath : string;
  QueryString : string
}.

Record Response := mkResponse { status : nat; body : string }.

(** outputError *)
Definition outputError (st : nat) (msg : string) : Response :=
  mkResponse st ("<html><body><h1>Error</h1><p>" +:+ msg +:+ "</p></body></html>").

Section Handler.

(** Executing the embedded redirect template on its data. *)
Variable renderRedirectPage : redirectTemplateData -> string.

(** outputHTML: the 200 header is written first, then the page. *)
Definition outputHTML (redirectHost containerPort path queryString : string) : Response :=
  let parsed := parseRedirectHost redirectHost in
  mkResponse 200 (renderRedirectPage
    (mkRedirectTemplateData (Base parsed) (PathP parsed) (Query parsed)
                            containerPort path queryString)).

(** RedirectHandler.ServeHTTP on a request with URL path [urlPath] and raw
    query [rawQuery]. *)
Definition ServeHTTP (reg : Registry) (urlPath rawQuery : string) : Response :=
  let pathInfo := trimPrefix urlPath "/redirect/" in
  let parts := splitN3 pathInfo "/" in
  match parts with
  | [] | [_] =>
      outputError 400 "Invalid path format, expected: /<appname>/<entry>[/<path>]"
  | appName :: entryName0 :: more =>
      let path := match more with
                  | [p] => if String.eqb p "" then "/" else "/" +:+ p
                  | _ => "/"
                  end in
      let entryName := if String.eqb entryName0 "_" then "" else entryName0 in
      match Get reg appName with
      | None => outputError 404 ("App not found: " +:+ appName)
      | Some appInstance =>
          match GetEntry appInstance entryName with
          | None => outputError 404 ("Entry not found: " +:+ entryName +:+ " (app: " +:+ appName +:+ ")")
          | Some entry =>
              if String.eqb (eRedirect entry) "" then
                outputError 400 ("Entry does not have redirect configured: " +:+ entryName)
              else outputHTML (eRedirect entry) (ePort entry) path (sanitizeQueryString rawQuery)
          end
      end
  end.

End Handler.

End Redirect.

(* ------------------------------------------------------------------ *)
(** ** internal/fpkgen/generator.go : entries from labels *)

Module EntryParsing.
Import AppModel Generator.

(** entryFields *)
Definition entryFields : list string :=
  ["service_port"; "protocol"; "path"; "ui_type"; "all_users"; "icon"; "title";
   "file_types"; "no_display"; "control.access_perm"; "control.port_perm";
   "control.path_perm"; "redirect"].

(** isEntryField *)
Definition isEntryField (field : string) : bool :=
  existsb (String.eqb field) entryFields || hasPrefix field "control.".

(** [_, ok := labels[key]] *)
Definition hasKey (labels : gmap string string) (key : string) : bool :=
  match labels !! key with Some _ => true | None => false end.

(** hasDefaultEntry *)
Definition hasDefaultEntry (labels : gmap string string) : bool :=
  hasKey labels "watchcow.service_port" || hasKey labels "watchcow.protocol"
  || hasKey labels "watchcow.path" || hasKey labels "watchcow.title"
  || hasKey labels "watchcow.ui_type".

(** strings.TrimSpace: it drops from both ends the runes unicode.IsSpace
    accepts, read off the UTF-8 bytes.  Those are the six ASCII
    white-space bytes (asciiSpace) and the encodings of U+0085, U+00A0,
    U+1680, U+2000 to U+200A, U+2028, U+2029, U+202F, U+205F and U+3000
    (the White_Space table).  Any other byte stops the trimming; an
    invalid encoding decodes as U+FFFD, which is no space. *)
Definition isSpace (c : ascii) : bool :=
  let n := nat_of_ascii c in Nat.eqb n 32 || (Nat.leb 9 n && Nat.leb n 13).

(** The UTF-8 encodings of the non-ASCII white-space runes. *)
Definition spaceRunes : list (list ascii) :=
  map (map ascii_of_nat)
    ([[194; 133]; [194; 160]; [225; 154; 128]]
     ++ map (fun k => [226; 128; k]) (seq 128 11)
     ++ [[226; 128; 168]; [226; 128; 169]; [226; 128; 175]; [226; 129; 159];
         [227; 128; 128]]).

(** [l] with the prefix [p] removed, when [p] is a prefix of it. *)
Fixpoint stripPrefixL (p l : list ascii) : option (list ascii) :=
  match p, l with
  | [], _ => Some l
  | a :: p', b :: l' => if Ascii.eqb a b then stripPrefixL p' l' else None
  | _ :: _, [] => None
  end.

(** [l] with the first rune of [rs] it starts with removed. *)
Fixpoint stripRune (rs : list (list ascii)) (l : list ascii) : option (list ascii) :=
  match rs with
  | [] => None
  | r :: rs' =>
      match stripPrefixL r l with
      | Some l' => Some l'
      | None => stripRune rs' l
      end
  end.

(** The leading white space dropped, each step consuming at least one
    byte ([fuel] is the length of the input). *)
Fixpoint dropSpaceL (rs : list (list ascii)) (fuel : nat) (l : list ascii) : list ascii :=
  match fuel with
  | O => l
  | S fuel' =>
      match l with
      | [] => []
      | c :: l' =>
          if isSpace c then dropSpaceL rs fuel' l'
          else match stripRune rs l with
               | Some l'' => dropSpaceL rs fuel' l''
               | None => l
               end
      end
  end.

(** TrimSpace: the left end, then the right end of what is left (on the
    reversed bytes, against the reversed encodings: DecodeLastRune finds
    a white-space rune at the end exactly when the string ends with its
    encoding). *)
Definition trimSpace (s : string) : string :=
  let l := dropSpaceL spaceRunes (String.length s) (String.list_ascii_of_string s) in
  let r := dropSpaceL (map (@rev ascii) spaceRunes) (length l) (rev l) in
  String.string_of_list_ascii (rev r).

(** The file_types loop: split on [,], trim, keep the non-empty ones. *)
Definition parseFileTypes (ft : string) : list string :=
  filter (fun t => negb (String.eqb t "")) (map trimSpace (Redirect.splitAll ft ",")).

Section Parse.

(** buildIconURL (reads WATCHCOW_ICON_CDN_TEMPLATE and the local icon
    directory). *)
Variable buildIconURL : string -> string.

(** parseEntry *)
Definition parseEntry (labels : gmap string string) (name displayName defaultIcon : string)
    : Entry :=
  let prefix := if String.eqb name "" then "watchcow." else "watchcow." +:+ name +:+ "." in
  let title0 := getLabel labels (prefix +:+ "title") "" in
  let title :=
    if String.eqb title0 "" then
      (if String.eqb name "" then displayName else displayName +:+ " - " +:+ name)
    else title0 in
  let iconFallback := if String.eqb name "" then defaultIcon else buildIconURL name in
  let ft := getLabel labels (prefix +:+ "file_types") "" in
  let fileTypes := if String.eqb ft "" then [] else parseFileTypes ft in
  let accessPerm := getLabel labels (prefix +:+ "control.access_perm") "" in
  let portPerm := getLabel labels (prefix +:+ "control.port_perm") "" in
  let pathPerm := getLabel labels (prefix +:+ "control.path_perm") "" in
  let control :=
    if negb (String.eqb accessPerm "") || negb (String.eqb portPerm "")
       || negb (String.eqb pathPerm "")
    then Some (mkEntryControl accessPerm portPerm pathPerm) else None in
  mkEntry name title
    (getLabel labels (prefix +:+ "protocol") "http")
    (getLabel labels (prefix +:+ "service_port") "")
    (getLabel labels (prefix +:+ "path") "/")
    (getLabel labels (prefix +:+ "ui_type") "url")
    (String.eqb (getLabel labels (prefix +:+ "all_users") "true") "true")
    (getLabel labels (prefix +:+ "icon") iconFallback)
    fileTypes
    (String.eqb (getLabel labels (prefix +:+ "no_display") "false") "true")
    control
    (getLabel labels (prefix +:+ "redirect") "").

(** The scan of ParseEntries over the label keys, visited in the order
    [it]: the set entryNames. *)
Definition scanNames (it : list (string * string)) : gset string :=
  foldr (fun kv acc =>
    let key := kv.1 in
    if hasPrefix key "watchcow." then
      match splitN2 (trimPrefix key "watchcow.") "." with
      | [n; f] => if isEntryField f then {[ n ]} ∪ acc else acc
      | _ => acc
      end
    else acc) ∅ it.

(** [entry.Port = defaultPort] when the entry has no port. *)
Definition withPort (defaultPort : string) (e : Entry) : Entry :=
  if String.eqb (ePort e) "" then
    mkEntry (eName e) (eTitle e) (eProtocol e) defaultPort (ePath e) (eUIType e)
      (eAllUsers e) (eIcon e) (eFileTypes e) (eNoDisplay e) (eControl e) (eRedirect e)
  else e.

(** ParseEntries, the names of entryNames visited in the order [nit]. *)
Definition ParseEntries (labels : gmap string string) (nit : list string)
    (displayName defaultIcon defaultPort : string) : list Entry :=
  (if hasDefaultEntry labels
   then [withPort defaultPort (parseEntry labels "" displayName defaultIcon)] else [])
  ++ map (fun name => withPort defaultPort (parseEntry labels name displayName defaultIcon)) nit.

(** The entries extractConfig gives an app: [displayName] and
    [defaultIcon] as it computes them from the labels, the container name
    and the image; [firstHostPort] is extractFirstPort(container). *)
Definition extractEntries (labels : gmap string string) (nit : list string)
    (displayName defaultIcon firstHostPort : string) : list Entry :=
  let protocol := getLabel labels "watchcow.protocol" "http" in
  let port0 := getLabel labels "watchcow.service_port" "" in
  let port := if String.eqb port0 "" then firstHostPort else port0 in
  let path := getLabel labels "watchcow.path" "/" in
  let uiType := getLabel labels "watchcow.ui_type" "url" in
  let allUsers := String.eqb (getLabel labels "watchcow.all_users" "true") "true" in
  match ParseEntries labels nit displayName defaultIcon port with
  | [] =>
      [mkEntry "" displayName protocol port path uiType allUsers defaultIcon []
         (String.eqb (getLabel labels "watchcow.no_display" "false") "true") None
         (getLabel labels "watchcow.redirect" "")]
  | entries => entries
  end.

End Parse.

End EntryParsing.

(* ------------------------------------------------------------------ *)
(** ** internal/server/storage.go : the configuration store *)

Module Storage.

(** *** Values and the Go heap

    The store keeps [map[ContainerKey]*StoredConfig]; a [StoredConfig]
    holds its entries in a slice, that is a pointer to a backing array and
    a length.  The heap maps config pointers to config structs and array
    pointers to the arrays' contents; a nil slice has no array. *)

(** server.StoredEntry (its FileTypes slice is kept as a value). *)
Record StoredEntry := mkStoredEntry {
  Name : string;
  Title : string;
  Protocol : string;
  Port : string;
  Path : string;
  UIType : string;
  AllUsers : bool;
  FileTypes : list string;
  NoDisplay : bool;
  Redirect : string;
  EntryIconBase64 : string
}.

(** A slice header: backing array (none for a nil slice) and length. *)
Record Slice := mkSlice { sArray : option nat; sLen : nat }.

(** server.StoredConfig (times kept as their text). *)
Record StoredConfig := mkStoredConfig {
  Key : string;
  AppName : string;
  DisplayName : string;
  Description : string;
  Version : string;
  Maintainer : string;
  Entries : Slice;
  IconBase64 : string;
  CreatedAt : string;
  UpdatedAt : string
}.

Record Heap := mkHeap {
  cfgs : gmap nat StoredConfig;
  arrays : gmap nat (list StoredEntry)
}.

(** DashboardStorage.configs *)
Record DashboardStorage := mkDashboardStorage { configs : gmap string nat }.

(** The elements a slice denotes in a heap. *)
Definition sliceElems (h : Heap) (sl : Slice) : list StoredEntry :=
  match sArray sl with
  | None => []
  | Some a => take (sLen sl) (default [] (arrays h !! a))
  end.

(** [*p] read in full, entries included. *)
Definition deref (h : Heap) (p : nat) : option (StoredConfig * list StoredEntry) :=
  cfg ← cfgs h !! p; Some (cfg, sliceElems h (Entries cfg)).

(** DashboardStorage.Get: [copy := *cfg; return &copy] allocates a new
    struct holding the same field values, the Entries slice header
    included.  (A nil pointer in the map would make the dereference
    panic; Set never stores one.) *)
Definition Get (s : DashboardStorage) (h : Heap) (key : string) : Heap * option nat :=
  match configs s !! key with
  | Some p =>
      match cfgs h !! p with
      | Some cfg =>
          let q := fresh (dom (cfgs h)) in
          (mkHeap (<[q := cfg]> (cfgs h)) (arrays h), Some q)
      | None => (h, None)
      end
  | None => (h, None)
  end.

(** What a caller reads through a fresh [Get key]. *)
Definition observe (s : DashboardStorage) (h : Heap) (key : string)
    : option (StoredConfig * list StoredEntry) :=
  let '(h', r) := Get s h key in q ← r; deref h' q.

Definition withEntries (cfg : StoredConfig) (sl : Slice) : StoredConfig :=
  mkStoredConfig (Key cfg) (AppName cfg) (DisplayName cfg) (Description cfg)
    (Version cfg) (Maintainer cfg) sl (IconBase64 cfg) (CreatedAt cfg) (UpdatedAt cfg).

Definition withTitle (t : string) (e : StoredEntry) : StoredEntry :=
  mkStoredEntry (Name e) t (Protocol e) (Port e) (Path e) (UIType e) (AllUsers e)
    (FileTypes e) (NoDisplay e) (Redirect e) (EntryIconBase64 e).

(** What a caller can do with the pointer [q] it got: assign fields of
    [*q] ([config.IconBase64 = ...]), assign a freshly built slice to
    [q.Entries] ([config.Entries = h.parseEntriesFromForm(r)]), or assign
    an element [q.Entries[i] = g(q.Entries[i])]; [None] is a panic. *)
Inductive Mutation :=
  | SetFields (f : StoredConfig -> StoredConfig)
  | AssignEntries (es : list StoredEntry)
  | SetEntry (i : nat) (g : StoredEntry -> StoredEntry).

Definition mutate (h : Heap) (q : nat) (mu : Mutation) : option Heap :=
  cfg ← cfgs h !! q;
  match mu with
  | SetFields f => Some (mkHeap (<[q := f cfg]> (cfgs h)) (arrays h))
  | AssignEntries es =>
      let a := fresh (dom (arrays h)) in
      Some (mkHeap (<[q := withEntries cfg (mkSlice (Some a) (length es))]> (cfgs h))
                   (<[a := es]> (arrays h)))
  | SetEntry i g =>
      let sl := Entries cfg in
      if Nat.ltb i (sLen sl) then
        a ← sArray sl; arr ← arrays h !! a; e ← arr !! i;
        Some (mkHeap (cfgs h) (<[a := <[i := g e]> arr]> (arrays h)))
      else None
  end.

(** *** Persistence

    encoding/gob writes length-prefixed messages: the model writes a
    header carrying the number of entries followed by one chunk per map
    entry, and decoding fails unless the whole stream is there.  A file
    is its list of chunks; the disk maps paths to files. *)

Inductive Chunk (V : Type) :=
  | Header (n : nat)
  | Item (k : string) (v : V).

Arguments Header {V} n.
Arguments Item {V} k v.

Abbreviation Disk V := (gmap string (list (Chunk V))).

Section Persist.

Context {V : Type}.

Definition encode (m : gmap string V) : list (Chunk V) :=
  Header (size m) :: map (fun kv => Item kv.1 kv.2) (map_to_list m).

Definition fromItem (c : Chunk V) : option (string * V) :=
  match c with Item k v => Some (k, v) | Header _ => None end.

Definition decode (f : list (Chunk V)) : option (gmap string V) :=
  match f with
  | Header n :: rest =>
      if Nat.eqb (length rest) n then items ← mapM fromItem rest; Some (list_to_map items)
      else None
  | _ => None
  end.

(** The file-system calls the two versions of save and load make. *)
Inductive FsOp :=
  | OpCreate (f : string)
  | OpWrite (f : string) (c : Chunk V)
  | OpSync (f : string)
  | OpClose (f : string)
  | OpRename (src dst : string)
  | OpRemove (f : string).

Definition applyOp (d : Disk V) (o : FsOp) : Disk V :=
  match o with
  | OpCreate f => <[f := []]> d
  | OpWrite f c => match d !! f with Some cs => <[f := cs ++ [c]]> d | None => d end
  | OpSync _ | OpClose _ => d
  | OpRename src dst =>
      match d !! src with Some cs => <[dst := cs]> (delete src d) | None => d end
  | OpRemove f => delete f d
  end.

(** The disk after the calls [os] have completed.  A crash after the
    first [k] calls of a save leaves [runOps d (take k ops)]. *)
Definition runOps (d : Disk V) (os : list FsOp) : Disk V := foldl applyOp d os.

Definition tmpPath (filePath : string) : string := filePath +:+ ".tmp".

(** DashboardStorage.save of src/unnamed/part_005: create the .tmp file,
    encode into it, Sync, Close, Rename over the target. *)
Definition saveAtomic (filePath : string) (m : gmap string V) : list FsOp :=
  let tmp := tmpPath filePath in
  [OpCreate tmp] ++ map (OpWrite tmp) (encode m) ++
  [OpSync tmp; OpClose tmp; OpRename tmp filePath].

(** DashboardStorage.save of internal/server/storage.go: os.Create on the
    target itself, encode into it, Close (deferred). *)
Definition saveDirect (filePath : string) (m : gmap string V) : list FsOp :=
  [OpCreate filePath] ++ map (OpWrite filePath) (encode m) ++ [OpClose filePath].

(** tryLoadFrom (and storage.go's load): a missing file is no error and
    leaves the map empty; [None] is a decode error. *)
Definition tryLoadFrom (d : Disk V) (path : string) : option (gmap string V) :=
  match d !! path with
  | None => Some ∅
  | Some cs => decode cs
  end.

(** DashboardStorage.load of src/unnamed/part_005. *)
Definition loadAtomic (d : Disk V) (filePath : string) : Disk V * option (gmap string V) :=
  let tmp := tmpPath filePath in
  match d !! tmp with
  | Some cs =>
      match decode cs with
      | Some m => (applyOp d (OpRename tmp filePath), Some m)
      | None =>
          let d' := applyOp d (OpRemove tmp) in
          (d', tryLoadFrom d' filePath)
      end
  | None => (d, tryLoadFrom d filePath)
  end.

(** DashboardStorage.load of internal/server/storage.go. *)
Definition loadDirect (d : Disk V) (filePath : string) : Disk V * option (gmap string V) :=
  (d, tryLoadFrom d filePath).

End Persist.

Arguments FsOp : clear implicits.

End Storage.

(* ------------------------------------------------------------------ *)
(** ** internal/app : entry and registry helpers *)

Module AppOps.
Import AppModel.

(** RedirectConfig *)
Record RedirectConfig := mkRedirectConfig { rcHost : string; rcPort : string }.

(** Entry.GetRedirectConfig *)
Definition GetRedirectConfig (e : Entry) : option RedirectConfig :=
  if String.eqb (eRedirect e) "" then None
  else Some (mkRedirectConfig (eRedirect e) (ePort e)).

(** App.GetDefaultEntry *)
Definition GetDefaultEntry (a : App) : option Entry :=
  match GetEntry a "" with
  | Some entry => Some entry
  | None =>
      match aEntries a with
      | e0 :: _ => Some e0
      | [] => None
      end
  end.

(** The loop of App.HasRedirect. *)
Fixpoint hasRedirectIn (entries : list Entry) : bool :=
  match entries with
  | [] => false
  | entry :: rest =>
      if negb (String.eqb (eRedirect entry) "") then true else hasRedirectIn rest
  end.

(** App.HasRedirect *)
Definition HasRedirect (a : App) : bool := hasRedirectIn (aEntries a).

(** [r.apps.Range] visits the registry's entries in the order [it]. *)
Definition registry_range (r : Registry) (it : list (string * App)) : Prop :=
  it ≡ₚ map_to_list r.

(** Registry.GetByContainerID, the registry visited in the order [it]: the
    first app whose ContainerID matches stops the iteration. *)
Fixpoint GetByContainerID (it : list (string * App)) (containerID : string) : option App :=
  match it with
  | [] => None
  | (_, app) :: rest =>
      if String.eqb (aContainerID app) containerID then Some app
      else GetByContainerID rest containerID
  end.

(** [app.Status = status] *)
Definition setStatus (status : string) (a : App) : App :=
  mkApp (aAppName a) (aVersion a) (aDisplayName a) (aDescription a) (aMaintainer a)
    (aContainerID a) (aContainerName a) (aImage a) (aProtocol a) (aPort a) (aPath a)
    (aUIType a) (aAllUsers a) (aEntries a) (aVolumes a) (aEnvironment a) (aIcon a)
    (aRestartPolicy a) (aLabels a) status.

(** Registry.UpdateStatus: the registry holds pointers, so the status is
    set on the app stored under [appName]. *)
Definition UpdateStatus (r : Registry) (appName status : string) : Registry * bool :=
  match Get r appName with
  | Some app => (<[appName := setStatus status app]> r, true)
  | None => (r, false)
  end.

End AppOps.

(* ------------------------------------------------------------------ *)
(** ** The server's ContainerKey.Image *)

Module KeyOps.

(** ContainerKey.Image *)
Definition Image (k : string) : string :=
  match splitN2 k "|" with
  | p :: _ => p
  | [] => ""
  end.

End KeyOps.

(* ------------------------------------------------------------------ *)
(** ** internal/docker/monitor.go : events, the worker, uninstall and
    registration *)

Module MonitorOps.
Import AppModel MonitorState.

(** events.Message, the fields handleDockerEvent reads. *)
Record Message := mkMessage {
  Action : string;
  ActorID : string;
  ActorAttributes : gmap string string
}.

(** The fields of ContainerInspect's answer handleDockerEvent reads
    (Config.Image, NetworkSettings.Ports, Config.Labels,
    HostConfig.NetworkMode). *)
Record Inspected (PortMap : Type) := mkInspected {
  iImage : string;
  iPorts : PortMap;
  iLabels : gmap string string;
  iNetworkMode : string
}.

Arguments iImage {PortMap} _.
Arguments iPorts {PortMap} _.
Arguments iLabels {PortMap} _.
Arguments iNetworkMode {PortMap} _.

(** [if len(containerID) > 12 { containerID = containerID[:12] }] *)
Definition shortID (id : string) : string :=
  if Nat.ltb 12 (String.length id) then String.substring 0 12 id else id.

(** [state.State = st] *)
Definition setState (st : string) (cs : ContainerState) : ContainerState :=
  mkContainerState (csContainerID cs) (csContainerName cs) (csImage cs) st (csPorts cs)
    (csLabels cs) (csNetworkMode cs) (csAppName cs) (csInstalled cs).

(** An operation carrying only a type and a container ID. *)
Definition simpleOp (ty containerID : string) : AppOperation :=
  mkAppOperation ty "" "" containerID "" ∅ None.

Section Events.

(** The Docker client's ContainerInspect ([None]: an error). *)
Variable PortMap : Type.
Variable inspect : string -> option (Inspected PortMap).
(** extractPorts *)
Variable extractPorts : PortMap -> gmap string string.
(** Monitor.getStoredConfig (the config provider's GetByKey on the
    container key). *)
Variable getStoredConfig : string -> gmap string string -> option StoredConfig.
(** Monitor.processContainerStart (package generation and installation). *)
Variable processContainerStart : AppOperation -> Monitor -> Monitor.

(** handleDockerEvent *)
Definition handleDockerEvent (event : Message) (m : Monitor) : Monitor :=
  let containerName := index (ActorAttributes event) "name" in
  let containerID := shortID (ActorID event) in
  if String.eqb (Action event) "start" then
    match inspect containerID with
    | None => m
    | Some info =>
        let ports := extractPorts (iPorts info) in
        let state0 :=
          match containers m !! containerID with
          | Some st => st
          | None => mkContainerState containerID containerName "" "" ∅ ∅ "" "" false
          end in
        let state :=
          mkContainerState (csContainerID state0) (csContainerName state0) (iImage info)
            "running" ports (iLabels info) (iNetworkMode info) (csAppName state0)
            (csInstalled state0) in
        let m1 := setContainers (<[containerID := state]> (containers m)) m in
        let hasLabelConfig := Monitor.shouldInstall (iLabels info) in
        let storedConfig := getStoredConfig (iImage info) ports in
        if hasLabelConfig then
          queueOperation
            (mkAppOperation "container_start" "" "" containerID containerName (iLabels info) None) m1
        else match storedConfig with
             | Some sc =>
                 queueOperation
                   (mkAppOperation "container_start" "" "" containerID containerName
                      (iLabels info) (Some sc)) m1
             | None => m1
             end
    end
  else if String.eqb (Action event) "stop" || String.eqb (Action event) "die" then
    let m1 :=
      match containers m !! containerID with
      | Some state => setContainers (<[containerID := setState "exited" state]> (containers m)) m
      | None => m
      end in
    queueOperation (simpleOp "stop" containerID) m1
  else if String.eqb (Action event) "destroy" then
    queueOperation (simpleOp "destroy" containerID) m
  else m.

(** The switch of runOperationWorker on the operation's type. *)
Definition dispatch (op : AppOperation) (m : Monitor) : Monitor :=
  if String.eqb (opType op) "container_start" || String.eqb (opType op) "dashboard_install"
  then processContainerStart op m
  else if String.eqb (opType op) "stop" then processStop op m
  else if String.eqb (opType op) "destroy" then processDestroy op m
  else m.

(** One iteration of runOperationWorker: receive the oldest queued
    operation and dispatch it ([None]: the receive blocks). *)
Definition workerStep (m : Monitor) : option Monitor :=
  match opQueue m with
  | [] => None
  | op :: rest => Some (dispatch op (setOpQueue rest m))
  end.


(** The fields of a types.Container of ContainerList that scanContainers
    reads; a port is the pair (PrivatePort, PublicPort). *)
Record Listed := mkListed {
  lID : string;
  lNames : list string;
  lImage : string;
  lState : string;
  lPorts : list (nat * nat);
  lLabels : gmap string string
}.

(** The ports loop of scanContainers, fmt.Sprintf("%d") being the
    decimal rendering. *)
Definition scanPorts (ps : list (nat * nat)) : gmap string string :=
  foldl (fun acc p => if Nat.ltb 0 p.2 then <[pretty p.1 := pretty p.2]> acc else acc) ∅ ps.

(** The body of scanContainers' loop on one container ([None]: the
    slice expression [ctr.ID[:12]] or the index [ctr.Names[0]] panics). *)
Definition scanOne (ctr : Listed) (m : Monitor) : option Monitor :=
  if Nat.ltb (String.length (lID ctr)) 12 then None else
  match lNames ctr with
  | [] => None
  | name0 :: _ =>
      let containerID := String.substring 0 12 (lID ctr) in
      let containerName := trimPrefix name0 "/" in
      let ports := scanPorts (lPorts ctr) in
      let m1 := setContainers
                  (<[containerID := mkContainerState containerID containerName (lImage ctr)
                                      (lState ctr) ports (lLabels ctr) "" "" false]>
                     (containers m)) m in
      if negb (String.eqb (lState ctr) "running") then Some m1
      else
        let hasLabelConfig := Monitor.shouldInstall (lLabels ctr) in
        let storedConfig := getStoredConfig (lImage ctr) ports in
        if hasLabelConfig then
          Some (queueOperation
                  (mkAppOperation "container_start" "" "" containerID containerName
                     (lLabels ctr) None) m1)
        else match storedConfig with
             | Some sc =>
                 Some (queueOperation
                         (mkAppOperation "container_start" "" "" containerID containerName
                            (lLabels ctr) (Some sc)) m1)
             | None => Some m1
             end
  end.

Fixpoint scanList (ctrs : list Listed) (m : Monitor) : option Monitor :=
  match ctrs with
  | [] => Some m
  | ctr :: rest => m1 ← scanOne ctr m; scanList rest m1
  end.

(** scanContainers, on ContainerList's answer ([None]: an error, which
    is only logged). *)
Definition scanContainers (listed : option (list Listed)) (m : Monitor) : option Monitor :=
  match listed with
  | None => Some m
  | Some ctrs => scanList ctrs m
  end.

End Events.

(** The Range callback of TriggerUninstall on one container state. *)
Definition clearAppName (appName : string) (state : ContainerState) : ContainerState :=
  if String.eqb (csAppName state) appName then
    mkContainerState (csContainerID state) (csContainerName state) (csImage state)
      (csState state) (csPorts state) (csLabels state) (csNetworkMode state) "" false
  else state.

(** Monitor.TriggerUninstall *)
Definition TriggerUninstall (appName : string) (m : Monitor) : Monitor :=
  if String.eqb appName "" then m
  else
    let m1 := setRegistry (Unregister appName (registry m)) m in
    let m2 := match installer m1 with
              | Some _ => fst (installerUninstall appName m1)
              | None => m1
              end in
    setContainers (clearAppName appName <$> containers m2) m2.

(** The app.Entry registerAppFromStoredConfig builds from a stored entry. *)
Definition fromStoredEntry (e : StoredEntry) : Entry :=
  mkEntry (seName e) (seTitle e) (seProtocol e) (sePort e) (sePath e) (seUIType e)
    (seAllUsers e) "" (seFileTypes e) (seNoDisplay e) None (seRedirect e).

(** Monitor.registerAppFromStoredConfig *)
Definition registerAppFromStoredConfig (storedCfg : StoredConfig)
    (containerID containerName : string) (m : Monitor) : Monitor :=
  let appInstance :=
    mkApp (scAppName storedCfg) (scVersion storedCfg) (scDisplayName storedCfg)
      (scDescription storedCfg) (scMaintainer storedCfg) containerID containerName
      "" "" "" "" "" false (map fromStoredEntry (scEntries storedCfg)) [] [] "" "" ∅
      "running" in
  setRegistry (Register appInstance (registry m)) m.

(** The app.Entry registerAppFromLabels builds from a parsed entry. *)
Definition fromParsedEntry (e : Entry) : Entry :=
  mkEntry (eName e) (eTitle e) (eProtocol e) (ePort e) (ePath e) "" false "" [] false None
    (eRedirect e).

(** Monitor.registerAppFromLabels, ParseEntries visiting the entry names
    in the order [nit]. *)
Definition registerAppFromLabels (buildIconURL : string -> string)
    (appName containerID containerName : string) (labels : gmap string string)
    (nit : list string) (m : Monitor) : Monitor :=
  let displayName0 := index labels "watchcow.display_name" in
  let displayName := if String.eqb displayName0 "" then containerName else displayName0 in
  let defaultPort := index labels "watchcow.service_port" in
  let defaultIcon := index labels "watchcow.icon" in
  let entries :=
    EntryParsing.ParseEntries buildIconURL labels nit displayName defaultIcon defaultPort in
  let appInstance :=
    mkApp appName "" displayName "" "" containerID containerName
      (index labels "watchcow.image") "" "" "" "" false (map fromParsedEntry entries)
      [] [] "" "" ∅ "running" in
  setRegistry (Register appInstance (registry m)) m.

(** The operation types runOperationWorker's switch handles. *)
Definition workerTypes : list string :=
  ["container_start"; "dashboard_install"; "stop"; "destroy"].

(** The queue within the channel's capacity, holding only operations the
    worker's switch handles. *)
Definition queueWellFormed (m : Monitor) : Prop :=
  length (opQueue m) <= opQueueCap /\ Forall (fun op => opType op ∈ workerTypes) (opQueue m).

Section Run.

Variable PortMap : Type.
Variable inspect : string -> option (Inspected PortMap).
Variable extractPorts : PortMap -> gmap string string.
Variable getStoredConfig : string -> gmap string string -> option StoredConfig.
Variable processContainerStart : AppOperation -> Monitor -> Monitor.

(** The controller's activities, one at a time: the startup scan, the
    event listener handling one Docker event, the dashboard's install
    and uninstall requests, and the worker taking one operation. *)
Inductive monitorStep : Monitor -> Monitor -> Prop :=
| step_scan (listed : option (list Listed)) (m m' : Monitor) :
    scanContainers getStoredConfig listed m = Some m' -> monitorStep m m'
| step_event (ev : Message) (m : Monitor) :
    monitorStep m (handleDockerEvent PortMap inspect extractPorts getStoredConfig ev m)
| step_install (containerID : string) (cfg : StoredConfig) (m : Monitor) :
    monitorStep m (TriggerInstall containerID cfg m)
| step_uninstall (appName : string) (m : Monitor) :
    monitorStep m (TriggerUninstall appName m)
| step_worker (m m' : Monitor) :
    workerStep processContainerStart m = Some m' -> monitorStep m m'.

End Run.

End MonitorOps.

(* ------------------------------------------------------------------ *)
(** ** internal/fpkgen/generator.go : environment and icon helpers *)

Module GeneratorOps.

(** The blacklist of filterEnvironment. *)
Definition blacklist : list string :=
  ["PATH="; "HOME="; "USER="; "HOSTNAME="; "PWD="; "SHLVL="].

(** The inner loop of filterEnvironment: does [e] start with a
    blacklisted prefix (the loop breaks at the first one)? *)
Fixpoint skipEnv (e : string) (bl : list string) : bool :=
  match bl with
  | [] => false
  | b :: rest => if hasPrefix e b then true else skipEnv e rest
  end.

(** filterEnvironment *)
Fixpoint filterEnvironment (env : list string) : list string :=
  match env with
  | [] => []
  | e :: rest =>
      if skipEnv e blacklist then filterEnvironment rest else e :: filterEnvironment rest
  end.

Section Icons.

(** buildIconURL (reads the environment and the local icon directory). *)
Variable buildIconURL : string -> string.

(** buildIconURLFromImage: strings.Split never returns an empty slice, so
    the defaults of [last] and [head] are never taken. *)
Definition buildIconURLFromImage (image : string) : string :=
  let parts := Redirect.splitAll image "/" in
  let imageName := default "" (last parts) in
  let imageName := default "" (head (Redirect.splitAll imageName ":")) in
  buildIconURL imageName.

End Icons.

End GeneratorOps.

(* ------------------------------------------------------------------ *)
(** ** internal/server : the store's other operations *)

Module StorageOps.
Import Storage.

(** The value gob writes for a map entry: the struct the pointer refers
    to, with the elements of its Entries slice. *)
Definition snapshot (s : DashboardStorage) (h : Heap)
    : gmap string (StoredConfig * list StoredEntry) :=
  omap (deref h) (configs s).

(** DashboardStorage.Set on the pointer [p]: store it under [p.Key], then
    save (the file-system calls of the atomic save are returned; reading
    [cfg.Key] through a pointer with no struct is a panic, [None]). *)
Definition Set_ (s : DashboardStorage) (h : Heap) (filePath : string) (p : nat)
    : option (DashboardStorage * list (FsOp (StoredConfig * list StoredEntry))) :=
  cfg ← cfgs h !! p;
  let s' := mkDashboardStorage (<[Key cfg := p]> (configs s)) in
  Some (s', saveAtomic filePath (snapshot s' h)).

(** DashboardStorage.Delete *)
Definition Delete (s : DashboardStorage) (h : Heap) (filePath key : string)
    : DashboardStorage * list (FsOp (StoredConfig * list StoredEntry)) :=
  let s' := mkDashboardStorage (delete key (configs s)) in
  (s', saveAtomic filePath (snapshot s' h)).

(** DashboardStorage.Has *)
Definition Has (s : DashboardStorage) (key : string) : bool :=
  match configs s !! key with Some _ => true | None => false end.

(** The docker.StoredEntry GetByKey builds from a stored entry. *)
Definition toDockerEntry (e : StoredEntry) : MonitorState.StoredEntry :=
  MonitorState.mkStoredEntry (Name e) (Title e) (Protocol e) (Port e) (Path e) (UIType e)
    (AllUsers e) (FileTypes e) (NoDisplay e) (Redirect e) (EntryIconBase64 e).

(** DashboardStorage.GetByKey: a new docker.StoredConfig whose Entries
    slice is freshly built from the stored entries. *)
Definition GetByKey (s : DashboardStorage) (h : Heap) (key : string)
    : option MonitorState.StoredConfig :=
  p ← configs s !! key;
  cfg ← cfgs h !! p;
  Some (MonitorState.mkStoredConfig (AppName cfg) (DisplayName cfg) (Description cfg)
          (Version cfg) (Maintainer cfg) (map toDockerEntry (sliceElems h (Entries cfg)))
          (IconBase64 cfg)).

End StorageOps.

(* ================================================================== *)
(** * Properties *)
(* ================================================================== *)

(* ------------------------------------------------------------------ *)
(** ** Adoption by labels *)

Module MonitorLabelFacts.
Import Monitor.

(** Claim C1: [shouldInstall labels] is true exactly when
    [labels["watchcow.enable"]] is ["true"] and [labels["watchcow.install"]]
    (the zero value [""] when absent) is one of [""], ["true"], ["fnos"]. *)
Theorem shouldInstall_iff (labels : gmap string string) :
  shouldInstall labels = true <->
  index labels "watchcow.enable" = "true" /\
  index labels "watchcow.install" ∈ ["" ; "true" ; "fnos"].
Proof.
  unfold shouldInstall.
  rewrite !elem_of_cons, elem_of_nil.
  destruct (String.eqb_spec (index labels "watchcow.enable") "true") as [He|He];
    simpl; [|split; [discriminate | intros [? _]; contradiction]].
  destruct (String.eqb_spec (index labels "watchcow.install") "fnos");
  destruct (String.eqb_spec (index labels "watchcow.install") "true");
  destruct (String.eqb_spec (index labels "watchcow.install") "");
    simpl; intuition congruence.
Qed.

End MonitorLabelFacts.

(* ------------------------------------------------------------------ *)
(** ** Container keys *)

Module KeyFacts.
Import Key.

Lemma append_empty_r (s : string) : s +:+ "" = s.
Proof.
  induction s as [|c s IH]; [done|].
  change (String c (s +:+ "") = String c s). by rewrite IH.
Qed.

Lemma portPairs_perm (it1 it2 : list (string * string)) :
  it1 ≡ₚ it2 -> portPairs it1 ≡ₚ portPairs it2.
Proof.
  induction 1 as [| [c h] l1 l2 _ IH | [c1 h1] [c2 h2] l | l1 l2 l3 _ IH1 _ IH2];
    simpl.
  - done.
  - by apply perm_skip.
  - apply perm_swap.
  - by etrans.
Qed.

Lemma sortStrings_sorted (l : list string) : Sorted String.le (sortStrings l).
Proof. apply Sorted_merge_sort. apply _. Qed.

Lemma sortStrings_perm_self (l : list string) : sortStrings l ≡ₚ l.
Proof. apply merge_sort_Permutation. Qed.

(** Sorting forgets the input order. *)
Lemma sortStrings_perm (l1 l2 : list string) :
  l1 ≡ₚ l2 -> sortStrings l1 = sortStrings l2.
Proof.
  intros Hp. apply (Sorted_unique String.le); try apply sortStrings_sorted.
  by rewrite !sortStrings_perm_self.
Qed.

(** The key as a function of the map alone. *)
Lemma makeContainerKey_canonical (image : string) (ports : gmap string string)
    (it : list (string * string)) :
  go_range ports it ->
  makeContainerKey image ports it =
  image +:+ "|" +:+ join (sortStrings (portPairs (map_to_list ports))) ",".
Proof.
  unfold go_range, makeContainerKey. intros Hit.
  case_decide as Hs.
  - apply map_size_empty_iff in Hs as ->. rewrite map_to_list_empty.
    simpl. by rewrite append_empty_r.
  - by rewrite (sortStrings_perm _ _ (portPairs_perm _ _ Hit)).
Qed.

(** Claim C8 (as amended): both key functions agree; the result does
    not depend on the order in which the Go map is visited; and it is
    [image + "|"] followed by the comma-join of the ["cport:hport"]
    strings sorted byte-wise lexicographically as whole strings. *)
Theorem container_key_equal_and_order_independent (image : string)
    (ports : gmap string string) (it1 it2 : list (string * string)) :
  go_range ports it1 -> go_range ports it2 ->
  Key.NewContainerKey image ports it1 = makeContainerKey image ports it2 /\
  exists sorted,
    Sorted String.le sorted /\ sorted ≡ₚ portPairs (map_to_list ports) /\
    makeContainerKey image ports it1 = image +:+ "|" +:+ join sorted ",".
Proof.
  intros H1 H2. split.
  - change (Key.NewContainerKey image ports it1) with (makeContainerKey image ports it1).
    by rewrite (makeContainerKey_canonical _ _ _ H1), (makeContainerKey_canonical _ _ _ H2).
  - exists (sortStrings (portPairs (map_to_list ports))).
    split; [apply sortStrings_sorted|]. split; [apply sortStrings_perm_self|].
    by apply makeContainerKey_canonical.
Qed.

Lemma container_key_equal_and_order_independent_witness :
  go_range (<["8":="1"]> (<["80":="2"]> ∅)) [("8","1"); ("80","2")] /\
  go_range (<["8":="1"]> (<["80":="2"]> ∅)) [("80","2"); ("8","1")] /\
  Key.NewContainerKey "img" (<["8":="1"]> (<["80":="2"]> ∅)) [("8","1"); ("80","2")]
  = makeContainerKey "img" (<["8":="1"]> (<["80":="2"]> ∅)) [("80","2"); ("8","1")].
Proof.
  assert (H1 : go_range (<["8":="1"]> (<["80":="2"]> ∅)) [("8","1"); ("80","2")])
    by (unfold go_range; vm_compute; apply perm_swap).
  assert (H2 : go_range (<["8":="1"]> (<["80":="2"]> ∅)) [("80","2"); ("8","1")])
    by (unfold go_range; vm_compute; reflexivity).
  split; [exact H1|]. split; [exact H2|].
  exact (proj1 (container_key_equal_and_order_independent "img" _ _ _ H1 H2)).
Defined.

(** Claim C8, counterexample: container ports ["8"] and ["80"]; sorting
    the whole ["cport:hport"] strings puts ["80:2"] before ["8:1"] (the
    byte [0] sorts below [:]), so the pairs are not in the order of the
    container ports. *)
Lemma container_key_not_by_container_port :
  go_range (<["8":="1"]> (<["80":="2"]> ∅)) [("8","1"); ("80","2")] /\
  makeContainerKey "img" (<["8":="1"]> (<["80":="2"]> ∅)) [("8","1"); ("80","2")]
    = "img|80:2,8:1" /\
  keyByContainerPortOrder "img" (<["8":="1"]> (<["80":="2"]> ∅)) = "img|8:1,80:2".
Proof.
  split; [unfold go_range; vm_compute; apply perm_swap|].
  split; vm_compute; reflexivity.
Qed.

End KeyFacts.

(* ------------------------------------------------------------------ *)
(** ** Destroy and dashboard-triggered install *)

Module MonitorOpFacts.
Import AppModel MonitorState.

(** The appcenter-cli calls a destroy makes for a tracked container. *)
Definition destroyCalls (state : ContainerState) (m : Monitor) : list (list string) :=
  if csInstalled state && bool_decide (is_Some (installer m))
  then [["stop"; csAppName state]; ["uninstall"; csAppName state]]
  else [].

Lemma processStop_frame (op : AppOperation) (m : Monitor) :
  containers (processStop op m) = containers m /\
  registry (processStop op m) = registry m /\
  installer (processStop op m) = installer m /\
  exists extra, cliLog (processStop op m) = cliLog m ++ extra.
Proof.
  unfold processStop.
  destruct (containers m !! opContainerID op) as [st|];
    [|repeat split; exists []; by rewrite app_nil_r].
  destruct (csInstalled st); simpl; [|repeat split; exists []; by rewrite app_nil_r].
  destruct (installer m) eqn:E; simpl; (split; [done|]); (split; [done|]);
    (split; [by rewrite ?E|]).
  - by eexists.
  - exists []. by rewrite app_nil_r.
Qed.

Lemma processDestroy_tracked (op : AppOperation) (m : Monitor) (state : ContainerState) :
  containers m !! opContainerID op = Some state ->
  containers (processDestroy op m) = delete (opContainerID op) (containers m) /\
  registry (processDestroy op m) = delete (csAppName state) (registry m) /\
  opQueue (processDestroy op m) = opQueue m /\
  cliLog (processDestroy op m) = cliLog m ++ destroyCalls state m.
Proof.
  intros Hst. unfold processDestroy, destroyCalls. rewrite Hst.
  destruct (csInstalled state); destruct (installer m) eqn:E; cbn;
    rewrite ?E; cbn; rewrite ?app_nil_r, <-?app_assoc; auto.
Qed.

(** Claim C2 (as amended): a destroy of a tracked container removes it
    from the container map and unregisters its app name (before, and
    whatever the outcome of, any uninstall: the uninstall's result is
    never consulted); it calls the installer's uninstall exactly when the
    container was tracked as installed and an installer is present.  A
    stop processed in between (processStop never clears [Installed])
    changes neither the map, the registry nor the uninstall decision. *)
Theorem processDestroy_spec (op stopOp : AppOperation) (m : Monitor)
    (state : ContainerState) :
  containers m !! opContainerID op = Some state ->
  containers (processDestroy op m) = delete (opContainerID op) (containers m) /\
  registry (processDestroy op m) = delete (csAppName state) (registry m) /\
  cliLog (processDestroy op m) = cliLog m ++ destroyCalls state m /\
  (In ["uninstall"; csAppName state] (destroyCalls state m) <->
   csInstalled state = true /\ is_Some (installer m)) /\
  containers (processDestroy op (processStop stopOp m)) =
    containers (processDestroy op m) /\
  registry (processDestroy op (processStop stopOp m)) =
    registry (processDestroy op m) /\
  cliLog (processDestroy op (processStop stopOp m)) =
    cliLog (processStop stopOp m) ++ destroyCalls state m.
Proof.
  intros Hst.
  destruct (processStop_frame stopOp m) as (Hc & Hr & Hi & _).
  assert (Hst' : containers (processStop stopOp m) !! opContainerID op = Some state)
    by (rewrite Hc; exact Hst).
  destruct (processDestroy_tracked op m state Hst) as (H1 & H2 & _ & H4).
  destruct (processDestroy_tracked op _ state Hst') as (H1' & H2' & _ & H4').
  assert (Hcalls : destroyCalls state (processStop stopOp m) = destroyCalls state m)
    by (unfold destroyCalls; by rewrite Hi).
  split; [done|]. split; [done|]. split; [done|].
  split.
  - unfold destroyCalls.
    destruct (csInstalled state); destruct (installer m) as [p|]; cbn.
    + split; [intros _; split; [done | by eexists] | intros _; right; left; done].
    + split; [intros [] | intros [_ [? Hs]]; discriminate].
    + split; [intros [] | intros [Hf _]; discriminate].
    + split; [intros [] | intros [Hf _]; discriminate].
  - rewrite H1', H2', H4', Hcalls, Hc, Hr, H1, H2. done.
Qed.

Definition sampleState (installed : bool) : ContainerState :=
  {| csContainerID := "abc123def456"; csContainerName := "memos";
     csImage := "neosmemo/memos:stable"; csState := "running";
     csPorts := <["5230" := "5230"]> ∅; csLabels := <["watchcow.enable" := "true"]> ∅;
     csNetworkMode := "bridge"; csAppName := "watchcow.memos";
     csInstalled := installed |}.

Definition sampleMonitor (installed : bool) : Monitor :=
  {| containers := <["abc123def456" := sampleState installed]> ∅;
     registry := ∅; opQueue := []; installer := Some "/usr/local/bin/appcenter-cli";
     cliLog := [] |}.

Definition destroyOp : AppOperation :=
  {| opType := "destroy"; opAppName := ""; opAppDir := "";
     opContainerID := "abc123def456"; opContainerName := "";
     opLabels := ∅; opStoredConfig := None |}.

Lemma processDestroy_spec_witness :
  containers (sampleMonitor true) !! opContainerID destroyOp = Some (sampleState true) /\
  cliLog (processDestroy destroyOp (sampleMonitor true)) =
    [["stop"; "watchcow.memos"]; ["uninstall"; "watchcow.memos"]].
Proof.
  assert (H : containers (sampleMonitor true) !! opContainerID destroyOp = Some (sampleState true))
    by reflexivity.
  split; [exact H|].
  destruct (processDestroy_spec destroyOp destroyOp (sampleMonitor true) (sampleState true) H)
    as (_ & _ & Hlog & _).
  rewrite Hlog. reflexivity.
Defined.

(** Claim C2, counterexample: a container tracked but not (or no longer)
    marked installed — e.g. after a failed install — is destroyed with
    an installer present; no uninstall is invoked. *)
Lemma processDestroy_skips_uninstall_when_not_installed :
  containers (sampleMonitor false) !! "abc123def456" = Some (sampleState false) /\
  installer (sampleMonitor false) = Some "/usr/local/bin/appcenter-cli" /\
  cliLog (processDestroy destroyOp (sampleMonitor false)) = [].
Proof. split; [|split]; reflexivity. Qed.

(** The preconditions TriggerInstall checks. *)
Definition triggerReady (m : Monitor) (containerID : string) : Prop :=
  exists state, containers m !! containerID = Some state /\
    csState state = "running" /\ csInstalled state = false.

(** Claim C10: TriggerInstall never touches the container map, the
    registry, the installer or the CLI log; when the container is
    tracked, running and not installed, it appends one
    [dashboard_install] operation for it carrying the stored config if
    the bounded queue (capacity 100) has room, and drops it otherwise;
    in every other case the Monitor is returned unchanged. *)
Theorem TriggerInstall_spec (containerID : string) (sc : StoredConfig) (m : Monitor) :
  containers (TriggerInstall containerID sc m) = containers m /\
  registry (TriggerInstall containerID sc m) = registry m /\
  installer (TriggerInstall containerID sc m) = installer m /\
  cliLog (TriggerInstall containerID sc m) = cliLog m /\
  (triggerReady m containerID -> length (opQueue m) < opQueueCap ->
     exists op, opQueue (TriggerInstall containerID sc m) = opQueue m ++ [op] /\
       opType op = "dashboard_install" /\ opContainerID op = containerID /\
       opStoredConfig op = Some sc) /\
  (triggerReady m containerID -> opQueueCap <= length (opQueue m) ->
     TriggerInstall containerID sc m = m) /\
  (~ triggerReady m containerID -> TriggerInstall containerID sc m = m).
Proof.
  unfold TriggerInstall, triggerReady, queueOperation.
  destruct (containers m !! containerID) as [st|] eqn:Hc.
  2:{ repeat split; try done; intros (? & [=] & _). }
  destruct (String.eqb_spec (csState st) "running") as [Hr|Hr]; simpl.
  2:{ repeat split; try done; intros (? & [=<-] & ? & _); contradiction. }
  destruct (csInstalled st) eqn:Hi.
  { repeat split; try done; intros (? & [=<-] & _ & ?); congruence. }
  repeat split.
  - by case_decide.
  - by case_decide.
  - by case_decide.
  - by case_decide.
  - intros _ Hlen. rewrite decide_True by done. by eexists.
  - intros _ Hlen. rewrite decide_False by lia. done.
  - intros Hn. exfalso. apply Hn. eauto.
Qed.

Lemma TriggerInstall_spec_witness :
  opQueue (TriggerInstall "abc123def456"
             {| scAppName := "watchcow.memos"; scDisplayName := "Memos";
                scDescription := ""; scVersion := "1.0.0"; scMaintainer := "WatchCow";
                scEntries := []; scIconBase64 := "" |} (sampleMonitor false)) <> [] /\
  TriggerInstall "abc123def456"
    {| scAppName := "watchcow.memos"; scDisplayName := "Memos";
       scDescription := ""; scVersion := "1.0.0"; scMaintainer := "WatchCow";
       scEntries := []; scIconBase64 := "" |} (sampleMonitor true) = sampleMonitor true.
Proof.
  set (sc := {| scAppName := "watchcow.memos"; scDisplayName := "Memos";
       scDescription := ""; scVersion := "1.0.0"; scMaintainer := "WatchCow";
       scEntries := []; scIconBase64 := "" |}).
  destruct (TriggerInstall_spec "abc123def456" sc (sampleMonitor false))
    as (_ & _ & _ & _ & Hq & _ & _).
  destruct (TriggerInstall_spec "abc123def456" sc (sampleMonitor true))
    as (_ & _ & _ & _ & _ & _ & Hn).
  split.
  - destruct Hq as (op & Hop & _).
    + exists (sampleState false). split; [reflexivity | split; reflexivity].
    + cbv. lia.
    + rewrite Hop. destruct (opQueue (sampleMonitor false)); discriminate.
  - apply Hn. intros (st & Hst & _ & Hi).
    vm_compute in Hst. injection Hst as <-. discriminate.
Defined.

End MonitorOpFacts.

(* ------------------------------------------------------------------ *)
(** ** Default app names *)

Module AppNameFacts.
Import Generator.

(** What sanitizeAppName does to one byte before the filter. *)
Definition sanitizeChar (c : ascii) : ascii :=
  if Ascii.eqb c "_" then "-" else lowerAscii c.

Lemma lowerAscii_underscore (c : ascii) : Ascii.eqb (lowerAscii c) "_" = Ascii.eqb c "_".
Proof. destruct c as [[] [] [] [] [] [] [] []]; vm_compute; reflexivity. Qed.

Lemma sanitizeAppName_chars (s : string) :
  sanitizeAppName s =
  String.string_of_list_ascii (List.filter appNameChar (map sanitizeChar (String.list_ascii_of_string s))).
Proof.
  unfold sanitizeAppName.
  induction s as [|c s IH]; [reflexivity|].
  cbn [toLower replaceAllc keepAppNameChars String.list_ascii_of_string map List.filter].
  rewrite lowerAscii_underscore. unfold sanitizeChar.
  destruct (Ascii.eqb c "_"), (appNameChar _); cbn; rewrite ?IH; reflexivity.
Qed.

Lemma keepAppNameChars_only (s : string) :
  Forall (fun c => appNameChar c = true) (String.list_ascii_of_string (keepAppNameChars s)).
Proof.
  induction s as [|c s IH]; cbn; [constructor|].
  destruct (appNameChar c) eqn:E; cbn; [constructor|]; auto.
Qed.

(** Claim C6 (as amended): without a non-empty [watchcow.appname] label
    the app name is ["watchcow." + sanitizeAppName(name)] for the
    container name with its leading "/" removed; sanitization lowercases
    ASCII letters, maps '_' to '-', and DROPS every other byte outside
    [a-z0-9-] (no run is replaced by "-"); so the result contains only
    [a-z0-9-] and in particular no whitespace. *)
Theorem default_app_name (labels : gmap string string) (containerName : string) :
  getLabel labels "watchcow.appname" "" = "" ->
  let name := trimPrefix containerName "/" in
  extractAppName labels containerName = "watchcow." +:+ sanitizeAppName name /\
  sanitizeAppName name =
    String.string_of_list_ascii (List.filter appNameChar (map sanitizeChar (String.list_ascii_of_string name))) /\
  Forall (fun c => appNameChar c = true /\ c <> " "%char /\ c <> "009"%char /\ c <> "010"%char)
    (String.list_ascii_of_string (sanitizeAppName name)).
Proof.
  intros Hl name. split; [|split].
  - unfold extractAppName, getLabel in *. fold name.
    destruct (labels !! "watchcow.appname") as [v|]; [|done].
    destruct (String.eqb_spec v ""); [done | congruence].
  - apply sanitizeAppName_chars.
  - eapply Forall_impl; [apply keepAppNameChars_only|].
    intros c Hc. split; [exact Hc|].
    split; [|split]; intros ->; discriminate.
Qed.

Lemma default_app_name_witness :
  getLabel ∅ "watchcow.appname" "" = "" /\
  extractAppName ∅ "/My_Memos" = "watchcow.my-memos".
Proof.
  assert (H : getLabel ∅ "watchcow.appname" "" = "") by reflexivity.
  split; [exact H|].
  destruct (default_app_name ∅ "/My_Memos" H) as [-> _]. reflexivity.
Defined.

(** Claim C6, counterexample: the container "my.app" gets the default
    app name "watchcow.myapp"; replacing the run "." by "-" would give
    "watchcow.my-app". *)
Lemma default_app_name_drops_chars :
  extractAppName ∅ "/my.app" = "watchcow.myapp" /\
  "watchcow." +:+ sanitizeBySpec "my.app" = "watchcow.my-app".
Proof. split; vm_compute; reflexivity. Qed.

End AppNameFacts.

(* ------------------------------------------------------------------ *)
(** ** Facts about the string helpers *)

Module StringFacts.

Lemma string_app_assoc (a b c : string) : (a +:+ b) +:+ c = a +:+ (b +:+ c).
Proof.
  induction a as [|x a IH]; [reflexivity|].
  change (String x ((a +:+ b) +:+ c) = String x (a +:+ (b +:+ c))).
  by rewrite IH.
Qed.

Lemma trimPrefix_app (p s : string) : trimPrefix (p +:+ s) p = s.
Proof.
  induction p as [|c p IH]; [by destruct s|].
  change (trimPrefix (String c (p +:+ s)) (String c p) = s).
  cbn [trimPrefix]. by rewrite Ascii.eqb_refl.
Qed.

Lemma cutc_app (a b : string) (sep : ascii) :
  hasChar a sep = false -> cutc (a +:+ String sep "" +:+ b) sep = (a, b, true).
Proof.
  induction a as [|c a IH]; intros H.
  - change (cutc (String sep b) sep = ("", b, true)).
    cbn [cutc]. by rewrite Ascii.eqb_refl.
  - change (cutc (String c (a +:+ String sep "" +:+ b)) sep = (String c a, b, true)).
    cbn [hasChar] in H. apply orb_false_iff in H as [H1 H2].
    cbn [cutc]. rewrite Ascii.eqb_sym, H1, IH by exact H2. reflexivity.
Qed.

Lemma cutc_none (a : string) (sep : ascii) :
  hasChar a sep = false -> cutc a sep = (a, "", false).
Proof.
  induction a as [|c a IH]; intros H; [reflexivity|].
  cbn [hasChar] in H. apply orb_false_iff in H as [H1 H2].
  cbn [cutc]. rewrite Ascii.eqb_sym, H1, IH by exact H2. reflexivity.
Qed.

End StringFacts.

(* ------------------------------------------------------------------ *)
(** ** The redirect resolver *)

Module RedirectFacts.
Import AppModel Redirect StringFacts.

(** The request path [/redirect/<app>/<entry>] followed, when [tail] is
    [Some r], by [/r]. *)
Definition redirectURLPath (app ent : string) (tail : option string) : string :=
  "/redirect/" +:+ app +:+ "/" +:+ ent +:+
  match tail with None => "" | Some r => "/" +:+ r end.

(** The path handed to the page for such a request. *)
Definition requestPath (tail : option string) : string :=
  match tail with
  | Some r => if String.eqb r "" then "/" else "/" +:+ r
  | None => "/"
  end.

(** The entry the segment [ent] denotes: [_] is the default entry. *)
Definition entryOf (ent : string) : string :=
  if String.eqb ent "_" then "" else ent.

Lemma splitN3_redirect (app ent : string) (tail : option string) :
  hasChar app "/" = false -> hasChar ent "/" = false ->
  splitN3 (app +:+ "/" +:+ ent +:+ match tail with None => "" | Some r => "/" +:+ r end) "/"
  = app :: ent :: match tail with None => [] | Some r => [r] end.
Proof.
  intros Ha He. unfold splitN3. rewrite cutc_app by exact Ha.
  unfold splitN2. destruct tail as [r|].
  - rewrite cutc_app by exact He. reflexivity.
  - rewrite KeyFacts.append_empty_r, cutc_none by exact He. reflexivity.
Qed.

Lemma ServeHTTP_unfold (render : redirectTemplateData -> string) (reg : Registry)
    (app ent rawQuery : string) (tail : option string) :
  hasChar app "/" = false -> hasChar ent "/" = false ->
  ServeHTTP render reg (redirectURLPath app ent tail) rawQuery =
  match Get reg app with
  | None => outputError 404 ("App not found: " +:+ app)
  | Some a =>
      match GetEntry a (entryOf ent) with
      | None => outputError 404 ("Entry not found: " +:+ entryOf ent +:+ " (app: " +:+ app +:+ ")")
      | Some e =>
          if String.eqb (eRedirect e) "" then
            outputError 400 ("Entry does not have redirect configured: " +:+ entryOf ent)
          else outputHTML render (eRedirect e) (ePort e) (requestPath tail)
                 (sanitizeQueryString rawQuery)
      end
  end.
Proof.
  intros Ha He. unfold ServeHTTP, redirectURLPath.
  rewrite trimPrefix_app, splitN3_redirect by assumption.
  destruct tail as [r|]; reflexivity.
Qed.

(** C7: on a request [/redirect/<app>/<entry>[/<path>]] (segments free of
    ['/'], [_] naming the default entry) the resolver answers 404 when the
    app is not registered or has no such entry, 400 with a page containing
    "does not have redirect configured" when the entry's redirect field is
    empty, and otherwise 200 with the page rendered from the parsed
    redirect target, the entry's port, the request path and the sanitized
    request query. *)
Theorem ServeHTTP_spec (render : redirectTemplateData -> string) (reg : Registry)
    (app ent rawQuery : string) (tail : option string)
    (Happ : hasChar app "/" = false) (Hent : hasChar ent "/" = false) :
  let r := ServeHTTP render reg (redirectURLPath app ent tail) rawQuery in
  (Get reg app = None -> status r = 404) /\
  (forall a, Get reg app = Some a -> GetEntry a (entryOf ent) = None -> status r = 404) /\
  (forall a e, Get reg app = Some a -> GetEntry a (entryOf ent) = Some e ->
     eRedirect e = "" ->
     status r = 400 /\
     exists pre post, body r = pre +:+ "does not have redirect configured" +:+ post) /\
  (forall a e, Get reg app = Some a -> GetEntry a (entryOf ent) = Some e ->
     eRedirect e <> "" ->
     status r = 200 /\
     body r = render (let p := parseRedirectHost (eRedirect e) in
                      mkRedirectTemplateData (Base p) (PathP p) (Query p) (ePort e)
                        (requestPath tail) (sanitizeQueryString rawQuery))).
Proof.
  intros r. unfold r. rewrite ServeHTTP_unfold by assumption.
  split; [intros H; by rewrite H|].
  split; [intros a Ha Hn; by rewrite Ha, Hn|].
  split.
  - intros a e Ha He Hr. rewrite Ha, He, Hr. cbn. split; [reflexivity|].
    exists "<html><body><h1>Error</h1><p>Entry ", (": " +:+ entryOf ent +:+ "</p></body></html>").
    reflexivity.
  - intros a e Ha He Hr. rewrite Ha, He.
    destruct (String.eqb_spec (eRedirect e) "") as [E|_]; [done|].
    split; reflexivity.
Qed.

Definition sampleEntry : Entry :=
  mkEntry "" "Memos" "http" "5230" "/" "url" true "" [] false None "https://h/p?a=1".

Definition sampleApp : App :=
  mkApp "memos" "1.0" "Memos" "" "" "c1" "memos" "img" "http" "5230" "/" "url" true
    [sampleEntry] [] [] "" "always" ∅ "running".

Lemma ServeHTTP_spec_witness :
  hasChar "memos" "/" = false /\ hasChar "_" "/" = false /\
  (let r := ServeHTTP (fun _ => "page") {[ "memos" := sampleApp ]}
              (redirectURLPath "memos" "_" (Some "x")) "q=1" in
   (Get {[ "memos" := sampleApp ]} "memos" = None -> status r = 404) /\
   (forall a, Get {[ "memos" := sampleApp ]} "memos" = Some a ->
      GetEntry a (entryOf "_") = None -> status r = 404) /\
   (forall a e, Get {[ "memos" := sampleApp ]} "memos" = Some a ->
      GetEntry a (entryOf "_") = Some e -> eRedirect e = "" ->
      status r = 400 /\
      exists pre post, body r = pre +:+ "does not have redirect configured" +:+ post) /\
   (forall a e, Get {[ "memos" := sampleApp ]} "memos" = Some a ->
      GetEntry a (entryOf "_") = Some e -> eRedirect e <> "" ->
      status r = 200 /\
      body r = (fun _ => "page") (let p := parseRedirectHost (eRedirect e) in
                 mkRedirectTemplateData (Base p) (PathP p) (Query p) (ePort e)
                   (requestPath (Some "x")) (sanitizeQueryString "q=1")))).
Proof.
  split; [reflexivity|]. split; [reflexivity|].
  apply (ServeHTTP_spec (fun _ => "page") {[ "memos" := sampleApp ]} "memos" "_" "q=1" (Some "x"));
    reflexivity.
Defined.

(** The spec's first equation does not hold: the query [q] of
    [https://h/p?q] is not a [key=value] pair, so it is sanitized away. *)
Lemma parseRedirectHost_drops_bare_query :
  parseRedirectHost "https://h/p?q" = mkParsedRedirect "https://h" "/p" "".
Proof. vm_compute. reflexivity. Qed.

Lemma validQueryString_sanitize (qs : string) :
  validQueryString (sanitizeQueryString qs) = true.
Proof.
  unfold sanitizeQueryString. destruct (validQueryString qs) eqn:E; [exact E|reflexivity].
Qed.

(** C9 (amended): the redirect parser keeps the scheme in the base only
    when the target names one, reads [h:8080] and [h/p/r] through a
    transient scheme, and passes the query through only when it has the
    [key=value(&key=value)...] form, dropping it otherwise; in general the
    query it yields is always empty or of that form. *)
Theorem parseRedirectHost_spec :
  parseRedirectHost "https://h/p?a=1" = mkParsedRedirect "https://h" "/p" "a=1" /\
  parseRedirectHost "https://h/p?q" = mkParsedRedirect "https://h" "/p" "" /\
  parseRedirectHost "h:8080" = mkParsedRedirect "h:8080" "" "" /\
  parseRedirectHost "h/p/r" = mkParsedRedirect "h" "/p/r" "" /\
  (forall host, validQueryString (Query (parseRedirectHost host)) = true).
Proof.
  split; [vm_compute; reflexivity|].
  split; [vm_compute; reflexivity|].
  split; [vm_compute; reflexivity|].
  split; [vm_compute; reflexivity|].
  intros host. unfold parseRedirectHost.
  destruct (URL.Parse _); [apply validQueryString_sanitize|reflexivity].
Qed.

End RedirectFacts.

(* ------------------------------------------------------------------ *)
(** ** The configuration store: copies returned by Get *)

Module StoreCopyFacts.
Import Storage.

(** The slice a config reaches has its array allocated. *)
Definition sliceAllocated (h : Heap) (sl : Slice) : Prop :=
  match sArray sl with None => True | Some a => is_Some (arrays h !! a) end.

Lemma sliceElems_arrays (h h' : Heap) (sl : Slice) :
  arrays h' = arrays h -> sliceElems h' sl = sliceElems h sl.
Proof. intros E. unfold sliceElems. by rewrite E. Qed.

Lemma observe_deref (s : DashboardStorage) (h : Heap) (key : string) :
  observe s h key = (p ← configs s !! key; deref h p).
Proof.
  unfold observe, Get. destruct (configs s !! key) as [p|]; [|reflexivity]. cbn.
  unfold deref. destruct (cfgs h !! p) as [cfg|] eqn:E; [|reflexivity]. cbn.
  rewrite lookup_insert_eq. reflexivity.
Qed.

Lemma Get_fresh (s : DashboardStorage) (h h1 : Heap) (key : string) (p q : nat)
    (cfg : StoredConfig) :
  configs s !! key = Some p -> cfgs h !! p = Some cfg ->
  Get s h key = (h1, Some q) ->
  q <> p /\ h1 = mkHeap (<[q := cfg]> (cfgs h)) (arrays h).
Proof.
  intros Hp Hc HG. unfold Get in HG. rewrite Hp, Hc in HG. injection HG as <- <-.
  split; [|reflexivity].
  intros E. apply (is_fresh (dom (cfgs h))). rewrite E. apply elem_of_dom. by eexists.
Qed.

(** C5 (amended): [Get] returns a fresh copy of the stored struct, so
    assigning fields of the copy, or assigning it a newly built Entries
    slice, leaves what a later [Get] of the key reads unchanged; but the
    copy shares the Entries backing array with the stored config, so
    assigning an element of the copy's Entries changes what a later [Get]
    reads at that position. *)
Theorem Get_shallow_copy (s : DashboardStorage) (h : Heap) (key : string) (p : nat)
    (cfg : StoredConfig)
    (Hp : configs s !! key = Some p) (Hc : cfgs h !! p = Some cfg)
    (Ha : sliceAllocated h (Entries cfg)) :
  observe s h key = Some (cfg, sliceElems h (Entries cfg)) /\
  forall h1 q, Get s h key = (h1, Some q) ->
  (forall f h2, mutate h1 q (SetFields f) = Some h2 -> observe s h2 key = observe s h key) /\
  (forall es h2, mutate h1 q (AssignEntries es) = Some h2 ->
     observe s h2 key = observe s h key) /\
  (forall i g e h2, sliceElems h (Entries cfg) !! i = Some e ->
     mutate h1 q (SetEntry i g) = Some h2 ->
     observe s h2 key = Some (cfg, <[i := g e]> (sliceElems h (Entries cfg)))).
Proof.
  assert (Hobs : observe s h key = Some (cfg, sliceElems h (Entries cfg))).
  { rewrite observe_deref, Hp. cbn. unfold deref. by rewrite Hc. }
  split; [exact Hobs|].
  intros h1 q HG. destruct (Get_fresh s h h1 key p q cfg Hp Hc HG) as [Hqp ->].
  rewrite Hobs. unfold mutate. cbn [cfgs arrays]. rewrite lookup_insert_eq. cbn.
  split; [|split].
  - intros f h2 [= <-]. rewrite observe_deref, Hp. cbn. unfold deref. cbn.
    rewrite !lookup_insert_ne by congruence. rewrite Hc. reflexivity.
  - intros es h2 [= <-]. rewrite observe_deref, Hp. cbn. unfold deref. cbn.
    rewrite !lookup_insert_ne by congruence. rewrite Hc. cbn. do 2 f_equal.
    unfold sliceAllocated in Ha. unfold sliceElems. cbn.
    destruct (sArray (Entries cfg)) as [b|]; [|reflexivity].
    rewrite lookup_insert_ne; [reflexivity|].
    intros E. apply (is_fresh (dom (arrays h))). rewrite E. by apply elem_of_dom.
  - intros i g e h2 He. unfold sliceElems in He |- *.
    destruct (sArray (Entries cfg)) as [a|] eqn:Ea; [|by rewrite lookup_nil in He].
    destruct (arrays h !! a) as [arr|] eqn:Earr; cbn in He;
      [|apply lookup_take_Some in He as [He _]; by rewrite lookup_nil in He].
    apply lookup_take_Some in He as [He Hi].
    destruct (sLen (Entries cfg)) as [|n] eqn:El; [lia|].
    rewrite (proj2 (Nat.leb_le i n)) by lia. cbn. rewrite Earr. cbn. rewrite He. cbn.
    intros [= <-]. rewrite observe_deref, Hp. cbn. unfold deref. cbn.
    rewrite lookup_insert_ne by congruence. rewrite Hc. cbn.
    unfold sliceElems. rewrite Ea, El. cbn. rewrite lookup_insert_eq. cbn.
    rewrite take_insert_lt by exact Hi. reflexivity.
Qed.

Definition sampleEntry : StoredEntry :=
  mkStoredEntry "" "Memos" "http" "5230" "/" "url" true [] false "" "".

Definition sampleConfig : StoredConfig :=
  mkStoredConfig "memos|5230:5230" "memos" "Memos" "" "1.0" "" (mkSlice (Some 0) 1) ""
    "t0" "t0".

Definition sampleStore : DashboardStorage := mkDashboardStorage {[ "memos|5230:5230" := 0 ]}.

Definition sampleHeap : Heap := mkHeap {[ 0 := sampleConfig ]} {[ 0 := [sampleEntry] ]}.

Lemma Get_shallow_copy_witness :
  configs sampleStore !! "memos|5230:5230" = Some 0 /\
  cfgs sampleHeap !! 0 = Some sampleConfig /\
  sliceAllocated sampleHeap (Entries sampleConfig) /\
  (observe sampleStore sampleHeap "memos|5230:5230"
     = Some (sampleConfig, sliceElems sampleHeap (Entries sampleConfig)) /\
   forall h1 q, Get sampleStore sampleHeap "memos|5230:5230" = (h1, Some q) ->
   (forall f h2, mutate h1 q (SetFields f) = Some h2 ->
      observe sampleStore h2 "memos|5230:5230" = observe sampleStore sampleHeap "memos|5230:5230") /\
   (forall es h2, mutate h1 q (AssignEntries es) = Some h2 ->
      observe sampleStore h2 "memos|5230:5230" = observe sampleStore sampleHeap "memos|5230:5230") /\
   (forall i g e h2, sliceElems sampleHeap (Entries sampleConfig) !! i = Some e ->
      mutate h1 q (SetEntry i g) = Some h2 ->
      observe sampleStore h2 "memos|5230:5230"
        = Some (sampleConfig, <[i := g e]> (sliceElems sampleHeap (Entries sampleConfig))))).
Proof.
  assert (H1 : configs sampleStore !! "memos|5230:5230" = Some 0) by reflexivity.
  assert (H2 : cfgs sampleHeap !! 0 = Some sampleConfig) by reflexivity.
  assert (H3 : sliceAllocated sampleHeap (Entries sampleConfig)) by (cbn; by eexists).
  split; [exact H1|]. split; [exact H2|]. split; [exact H3|].
  exact (Get_shallow_copy sampleStore sampleHeap "memos|5230:5230" 0 sampleConfig H1 H2 H3).
Defined.

(** Against the spec: retitling entry 0 through the returned copy changes
    what the next [Get] of the key reads. *)
Lemma Get_entries_aliased :
  match Get sampleStore sampleHeap "memos|5230:5230" with
  | (h1, Some q) =>
      match mutate h1 q (SetEntry 0 (withTitle "Changed")) with
      | Some h2 => observe sampleStore h2 "memos|5230:5230"
                   <> observe sampleStore sampleHeap "memos|5230:5230"
      | None => False
      end
  | (_, None) => False
  end.
Proof. vm_compute. discriminate. Qed.

End StoreCopyFacts.

(* ------------------------------------------------------------------ *)
(** ** The configuration store: saving and loading across crashes *)

Module StoreDiskFacts.
Import Storage.

Lemma length_append (a b : string) :
  String.length (a +:+ b) = String.length a + String.length b.
Proof.
  induction a as [|c a IH]; [reflexivity|].
  change (S (String.length (a +:+ b)) = S (String.length a + String.length b)).
  by rewrite IH.
Qed.

Lemma tmpPath_ne (path : string) : tmpPath path <> path.
Proof.
  unfold tmpPath. intros E. apply (f_equal String.length) in E.
  rewrite length_append in E. cbn in E. lia.
Qed.

Section Disk.

Context {V : Type}.

Lemma mapM_fromItem (l : list (string * V)) :
  mapM fromItem (map (fun kv => Item kv.1 kv.2) l) = Some l.
Proof.
  induction l as [|[k v] l IH]; [reflexivity|].
  cbn. rewrite IH. reflexivity.
Qed.

Lemma decode_encode (m : gmap string V) : decode (encode m) = Some m.
Proof.
  unfold decode, encode. cbv beta iota.
  rewrite length_map, length_map_to_list, Nat.eqb_refl, mapM_fromItem. cbn.
  by rewrite list_to_map_to_list.
Qed.

(** A stream cut short does not decode. *)
Lemma decode_prefix (m : gmap string V) (j : nat) :
  j < length (encode m) -> decode (take j (encode m)) = None.
Proof.
  destruct j as [|j]; [reflexivity|].
  unfold encode. cbn [length take]. intros Hj. unfold decode. cbv beta iota.
  rewrite length_take, length_map, length_map_to_list.
  replace (Nat.eqb (min j (size m)) (size m)) with false; [reflexivity|].
  symmetry. apply Nat.eqb_neq. rewrite length_map, length_map_to_list in Hj. lia.
Qed.

Lemma runOps_app (d : Disk V) (l1 l2 : list (FsOp V)) :
  runOps d (l1 ++ l2) = runOps (runOps d l1) l2.
Proof. unfold runOps. apply foldl_app. Qed.

Lemma runOps_writes (d : Disk V) (t : string) (c l : list (Chunk V)) :
  d !! t = Some c -> runOps d (map (OpWrite t) l) = <[t := c ++ l]> d.
Proof.
  unfold runOps. induction l as [|x l IH] in c, d |- *; intros H.
  - cbn. rewrite app_nil_r. symmetry. by apply insert_id.
  - cbn [map foldl applyOp]. rewrite H, (IH _ (c ++ [x])) by apply lookup_insert_eq.
    rewrite insert_insert_eq, <- app_assoc. reflexivity.
Qed.

(** The disk while the .tmp file is being written. *)
Lemma runOps_save_prefix (d : Disk V) (path : string) (m : gmap string V) (j : nat) :
  j <= length (encode m) ->
  runOps d (take (S j) (saveAtomic path m)) = <[tmpPath path := take j (encode m)]> d.
Proof.
  intros Hj. unfold saveAtomic. cbn [app take]. change (OpCreate (tmpPath path) :: ?l)
    with ([OpCreate (tmpPath path)] ++ l).
  rewrite runOps_app. cbn [runOps foldl applyOp].
  rewrite take_app_le by (rewrite length_map; lia).
  rewrite firstn_map, (runOps_writes _ _ []) by apply lookup_insert_eq.
  by rewrite insert_insert_eq.
Qed.

Lemma runOps_save_after (d : Disk V) (path : string) (m : gmap string V) (n : nat) :
  runOps d (take (S (length (encode m) + n)) (saveAtomic path m)) =
  runOps (<[tmpPath path := encode m]> d)
    (take n [OpSync (tmpPath path); OpClose (tmpPath path); OpRename (tmpPath path) path]).
Proof.
  unfold saveAtomic. cbn [app take]. change (OpCreate (tmpPath path) :: ?l)
    with ([OpCreate (tmpPath path)] ++ l).
  rewrite runOps_app. cbn [runOps foldl applyOp].
  rewrite take_app_ge by (rewrite length_map; lia).
  rewrite length_map, runOps_app.
  rewrite (runOps_writes _ _ []) by apply lookup_insert_eq.
  rewrite insert_insert_eq. cbn [app]. do 2 f_equal. lia.
Qed.

End Disk.

(** C4 (code_bug): the atomic version of the store (src/unnamed/part_005)
    has the spec's crash safety: started from a disk without a .tmp file
    whose target loads as [m_old], a crash after any number of the save's
    file-system calls leaves a disk that loads as [m_old] or as the new
    map; its load promotes a decodable .tmp file and discards an
    undecodable one.  The version in internal/server/storage.go does
    not: a crash right after its os.Create has truncated the target
    leaves a file that loads as neither the old nor the new map. *)
Theorem save_crash_safety_diverges :
  (forall (V : Type) (d : Disk V) (path : string) (m_old m_new : gmap string V) (k : nat),
     d !! tmpPath path = None -> tryLoadFrom d path = Some m_old ->
     let r := (loadAtomic (runOps d (take k (saveAtomic path m_new))) path).2 in
     r = Some m_old \/ r = Some m_new) /\
  (forall (V : Type) (d : Disk V) (path : string) (cs : list (Chunk V)) (m : gmap string V),
     d !! tmpPath path = Some cs -> decode cs = Some m ->
     loadAtomic d path = (<[path := cs]> (delete (tmpPath path) d), Some m)) /\
  (forall (V : Type) (d : Disk V) (path : string) (cs : list (Chunk V)),
     d !! tmpPath path = Some cs -> decode cs = None ->
     loadAtomic d path = (delete (tmpPath path) d, tryLoadFrom (delete (tmpPath path) d) path)) /\
  (let d0 : Disk string := {[ "dashboard.gob" := encode {[ "k" := "old" ]} ]} in
   let r := (loadDirect (runOps d0 (take 1 (saveDirect "dashboard.gob" {[ "k" := "new" ]})))
              "dashboard.gob").2 in
   tryLoadFrom d0 "dashboard.gob" = Some {[ "k" := "old" ]} /\
   r <> Some {[ "k" := "old" ]} /\ r <> Some {[ "k" := "new" ]}).
Proof.
  split; [|split; [|split]].
  - intros V d path m_old m_new k Ht Hold r. unfold r. clear r.
    destruct k as [|j].
    + cbn. unfold loadAtomic. rewrite Ht. left. exact Hold.
    + destruct (decide (j <= length (encode m_new))) as [Hj|Hj].
      * rewrite runOps_save_prefix by exact Hj. unfold loadAtomic.
        rewrite lookup_insert_eq.
        destruct (decide (j = length (encode m_new))) as [->|Hlt].
        -- rewrite take_ge by lia. rewrite decode_encode. right. reflexivity.
        -- rewrite decode_prefix by lia. left. cbn [snd applyOp].
           unfold tryLoadFrom in *.
           rewrite lookup_delete_ne, lookup_insert_ne by apply tmpPath_ne. exact Hold.
      * replace j with (length (encode m_new) + (j - length (encode m_new))) by lia.
        rewrite runOps_save_after.
        destruct (j - length (encode m_new)) as [|[|[|n]]] eqn:E; [lia| | |];
          cbn [take runOps foldl applyOp]; unfold loadAtomic.
        -- rewrite lookup_insert_eq, decode_encode. by right.
        -- rewrite lookup_insert_eq, decode_encode. by right.
        -- rewrite take_nil. cbn [foldl]. rewrite lookup_insert_eq. cbn [snd].
           rewrite lookup_insert_ne by (intros E0; by apply (tmpPath_ne path)).
           rewrite lookup_delete_eq. unfold tryLoadFrom.
           rewrite lookup_insert_eq, decode_encode. by right.
  - intros V d path cs m Ht Hd. unfold loadAtomic. rewrite Ht, Hd. cbn. by rewrite Ht.
  - intros V d path cs Ht Hd. unfold loadAtomic. rewrite Ht, Hd. reflexivity.
  - vm_compute. split; [reflexivity|]. split; discriminate.
Qed.

Lemma save_crash_safety_diverges_witness :
  let d : Disk string := {[ "dashboard.gob" := encode {[ "k" := "old" ]} ]} in
  d !! tmpPath "dashboard.gob" = None /\
  tryLoadFrom d "dashboard.gob" = Some {[ "k" := "old" ]} /\
  (let r := (loadAtomic (runOps d (take 3 (saveAtomic "dashboard.gob" {[ "k" := "new" ]})))
              "dashboard.gob").2 in
   r = Some {[ "k" := "old" ]} \/ r = Some {[ "k" := "new" ]}).
Proof.
  intros d.
  assert (Ht : d !! tmpPath "dashboard.gob" = None) by reflexivity.
  assert (Hold : tryLoadFrom d "dashboard.gob" = Some {[ "k" := "old" ]}) by reflexivity.
  split; [exact Ht|]. split; [exact Hold|].
  exact (proj1 save_crash_safety_diverges string d "dashboard.gob" _ _ 3 Ht Hold).
Defined.

End StoreDiskFacts.

(* ------------------------------------------------------------------ *)
(** ** Entries parsed from labels *)

Module EntryFacts.
Import AppModel Generator EntryParsing StringFacts.

Lemma hasPrefix_app (p s : string) : hasPrefix (p +:+ s) p = true.
Proof.
  induction p as [|c p IH]; [by destruct s|].
  change (hasPrefix (String c (p +:+ s)) (String c p) = true).
  cbn [hasPrefix]. by rewrite Ascii.eqb_refl.
Qed.

Lemma hasPrefix_trim (s p : string) :
  hasPrefix s p = true -> s = p +:+ trimPrefix s p.
Proof.
  revert s. induction p as [|c p IH]; intros s H.
  - by destruct s.
  - destruct s as [|d s]; [discriminate|]. cbn [hasPrefix] in H.
    destruct (Ascii.eqb_spec c d) as [<-|]; [|discriminate].
    cbn [trimPrefix]. rewrite Ascii.eqb_refl.
    change (String c s = String c (p +:+ trimPrefix s p)). by rewrite <- IH.
Qed.

Lemma cutc_true (s b a : string) (sep : ascii) :
  cutc s sep = (b, a, true) -> s = b +:+ String sep "" +:+ a /\ hasChar b sep = false.
Proof.
  revert b. induction s as [|c s IH]; intros b H; [discriminate|].
  cbn [cutc] in H. destruct (Ascii.eqb_spec c sep) as [->|Hne].
  - injection H as <- <-. split; reflexivity.
  - destruct (cutc s sep) as [[b' a'] f] eqn:E. injection H as <- -> ->.
    destruct (IH b' eq_refl) as [-> Hb]. split; [reflexivity|].
    cbn [hasChar]. rewrite Hb, orb_false_r. by apply Ascii.eqb_neq.
Qed.

Lemma splitN2_two (s n f : string) (sep : ascii) :
  splitN2 s sep = [n; f] <-> s = n +:+ String sep "" +:+ f /\ hasChar n sep = false.
Proof.
  unfold splitN2. split.
  - destruct (cutc s sep) as [[b a] fd] eqn:E. destruct fd; [|discriminate].
    intros [= -> ->]. by apply cutc_true.
  - intros [-> Hn]. by rewrite cutc_app.
Qed.

Lemma scanNames_spec (it : list (string * string)) (n : string) :
  n ∈ scanNames it <->
  exists key v, (key, v) ∈ it /\ hasPrefix key "watchcow." = true /\
    exists f, splitN2 (trimPrefix key "watchcow.") "." = [n; f] /\ isEntryField f = true.
Proof.
  induction it as [|[key v] it IH]; cbn [scanNames foldr fst].
  - split; [set_solver|]. intros (? & ? & H & _). by apply elem_of_nil in H.
  - assert (Hcons : (exists key' v', (key', v') ∈ (key, v) :: it /\
        hasPrefix key' "watchcow." = true /\
        exists f, splitN2 (trimPrefix key' "watchcow.") "." = [n; f] /\ isEntryField f = true)
      <-> (hasPrefix key "watchcow." = true /\
        exists f, splitN2 (trimPrefix key "watchcow.") "." = [n; f] /\ isEntryField f = true)
        \/ (exists key' v', (key', v') ∈ it /\ hasPrefix key' "watchcow." = true /\
        exists f, splitN2 (trimPrefix key' "watchcow.") "." = [n; f] /\ isEntryField f = true)).
    { split.
      - intros (k' & v' & Hin & H). apply elem_of_cons in Hin as [[= -> ->]|Hin]; [by left|].
        right. by exists k', v'.
      - intros [H|(k' & v' & Hin & H)].
        + exists key, v. split; [apply elem_of_cons; by left|exact H].
        + exists k', v'. split; [apply elem_of_cons; by right|exact H]. }
    rewrite Hcons, <- IH.
    destruct (hasPrefix key "watchcow.") eqn:Hp.
    + destruct (splitN2 (trimPrefix key "watchcow.") ".") as [|m [|f [|x l]]] eqn:Hs.
      * split; [by right|]. intros [(_ & f & Hf & _)|H]; [discriminate|exact H].
      * split; [by right|]. intros [(_ & f' & Hf & _)|H]; [discriminate|exact H].
      * destruct (isEntryField f) eqn:Hf.
        -- rewrite elem_of_union, elem_of_singleton. split.
           ++ intros [->|H]; [left; split; [reflexivity|by exists f]|by right].
           ++ intros [(_ & f' & [= -> ->] & _)|H]; [by left|by right].
        -- split; [by right|]. intros [(_ & f' & [= <- <-] & Hf')|H]; [congruence|exact H].
      * split; [by right|]. intros [(_ & f' & Hf & _)|H]; [discriminate|exact H].
    + split; [by right|]. intros [[H _]|H]; [discriminate|exact H].
Qed.

(** The key prefix parseEntry reads an entry's fields under. *)
Definition entryPrefix (name : string) : string :=
  if String.eqb name "" then "watchcow." else "watchcow." +:+ name +:+ ".".

(** A label is unset when absent or empty (getLabel's test). *)
Definition unset (labels : gmap string string) (key : string) : Prop :=
  getLabel labels key "" = "".

(** The spec's defaults for an entry whose fields are unset; an entry
    without a port gets the app's port: the top-level service_port label
    when set, the container's first host port otherwise. *)
Definition entryDefaults (labels : gmap string string) (displayName firstHostPort : string)
    (e : Entry) : Prop :=
  let p := entryPrefix (eName e) in
  (unset labels (p +:+ "protocol") -> eProtocol e = "http") /\
  (unset labels (p +:+ "path") -> ePath e = "/") /\
  (unset labels (p +:+ "ui_type") -> eUIType e = "url") /\
  (unset labels (p +:+ "all_users") -> eAllUsers e = true) /\
  (unset labels (p +:+ "no_display") -> eNoDisplay e = false) /\
  (unset labels (p +:+ "title") ->
     eTitle e = if String.eqb (eName e) "" then displayName
                else displayName +:+ " - " +:+ eName e) /\
  (unset labels (p +:+ "service_port") ->
     ePort e = getLabel labels "watchcow.service_port" firstHostPort).

Lemma getLabel_unset (labels : gmap string string) (key d : string) :
  unset labels key -> getLabel labels key d = d.
Proof.
  unfold unset, getLabel. destruct (labels !! key) as [v|]; [|done].
  destruct (String.eqb_spec v "") as [_|Hv]; [done|]. cbn. intros H. by destruct Hv.
Qed.

Lemma appPort_getLabel (labels : gmap string string) (firstHostPort : string) :
  (if String.eqb (getLabel labels "watchcow.service_port" "") "" then firstHostPort
   else getLabel labels "watchcow.service_port" "")
  = getLabel labels "watchcow.service_port" firstHostPort.
Proof.
  unfold getLabel. destruct (_ !! _) as [v|]; [|reflexivity].
  destruct (String.eqb_spec v "") as [->|Hv]; [reflexivity|].
  apply String.eqb_neq in Hv. by rewrite Hv.
Qed.

Lemma withPort_name (dp : string) (e : Entry) : eName (withPort dp e) = eName e.
Proof. unfold withPort. by destruct (String.eqb (ePort e) ""). Qed.

Lemma parsed_defaults (bi : string -> string) (labels : gmap string string)
    (name displayName defaultIcon firstHostPort : string) :
  entryDefaults labels displayName firstHostPort
    (withPort (getLabel labels "watchcow.service_port" firstHostPort)
       (parseEntry bi labels name displayName defaultIcon)).
Proof.
  unfold entryDefaults. rewrite withPort_name. cbn [eName parseEntry].
  unfold withPort.
  destruct (String.eqb (ePort (parseEntry bi labels name displayName defaultIcon)) "") eqn:Ep;
    cbn [parseEntry eProtocol ePath eUIType eAllUsers eNoDisplay eTitle ePort] in *;
    unfold entryPrefix;
    repeat split; intros H; rewrite ?(getLabel_unset _ _ _ H); try reflexivity.
  unfold unset in H. rewrite H in Ep. discriminate.
Qed.

Lemma ParseEntries_names (bi : string -> string) (labels : gmap string string)
    (nit : list string) (displayName defaultIcon dp : string) :
  map eName (ParseEntries bi labels nit displayName defaultIcon dp)
  = (if hasDefaultEntry labels then [""] else []) ++ nit.
Proof.
  unfold ParseEntries. rewrite map_app. f_equal.
  - destruct (hasDefaultEntry labels); [|reflexivity]. cbn. by rewrite withPort_name.
  - induction nit as [|n nit IH]; [reflexivity|]. cbn. by rewrite withPort_name, IH.
Qed.

(** The value every field of an entry takes from the labels under its
    prefix, set or unset: the label when set, the default otherwise; an
    entry's port falls back to the app's port. *)
Definition entryLabelValues (labels : gmap string string) (displayName firstHostPort : string)
    (e : Entry) : Prop :=
  let p := entryPrefix (eName e) in
  eTitle e = getLabel labels (p +:+ "title")
               (if String.eqb (eName e) "" then displayName
                else displayName +:+ " - " +:+ eName e) /\
  eProtocol e = getLabel labels (p +:+ "protocol") "http" /\
  ePort e = getLabel labels (p +:+ "service_port")
              (getLabel labels "watchcow.service_port" firstHostPort) /\
  ePath e = getLabel labels (p +:+ "path") "/" /\
  eUIType e = getLabel labels (p +:+ "ui_type") "url" /\
  eAllUsers e = String.eqb (getLabel labels (p +:+ "all_users") "true") "true" /\
  eNoDisplay e = String.eqb (getLabel labels (p +:+ "no_display") "false") "true" /\
  eRedirect e = getLabel labels (p +:+ "redirect") "".

Lemma getLabel_default (labels : gmap string string) (key d : string) :
  (if String.eqb (getLabel labels key "") "" then d else getLabel labels key "")
  = getLabel labels key d.
Proof.
  unfold getLabel. destruct (_ !! _) as [v|]; [|reflexivity].
  destruct (String.eqb_spec v "") as [->|Hv]; [reflexivity|].
  apply String.eqb_neq in Hv. by rewrite Hv.
Qed.

Lemma getLabel_absent (labels : gmap string string) (key d : string) :
  hasKey labels key = false -> getLabel labels key d = d.
Proof. unfold hasKey, getLabel. by destruct (labels !! key). Qed.

Lemma getLabel_idem (labels : gmap string string) (key d : string) :
  getLabel labels key (getLabel labels key d) = getLabel labels key d.
Proof.
  unfold getLabel. destruct (labels !! key) as [v|]; [|reflexivity].
  by destruct (String.eqb v "").
Qed.

Lemma parsed_values (bi : string -> string) (labels : gmap string string)
    (name displayName defaultIcon firstHostPort : string) :
  let e := withPort (getLabel labels "watchcow.service_port" firstHostPort)
             (parseEntry bi labels name displayName defaultIcon) in
  entryLabelValues labels displayName firstHostPort e /\
  eIcon e = getLabel labels (entryPrefix name +:+ "icon")
              (if String.eqb name "" then defaultIcon else bi name).
Proof.
  intros e. unfold e, entryLabelValues. rewrite withPort_name. cbn [eName parseEntry].
  unfold withPort. cbn [parseEntry ePort]. unfold entryPrefix.
  destruct (String.eqb (getLabel labels _ "") "") eqn:Ep;
    cbn [parseEntry eTitle eProtocol ePort ePath eUIType eAllUsers eNoDisplay eRedirect eIcon eName].
  all: rewrite ?getLabel_default.
  all: repeat split; try reflexivity.
  all: rewrite <- (getLabel_default labels _ (getLabel labels "watchcow.service_port" firstHostPort)), Ep;
    reflexivity.
Qed.

(** C3 (amended): the entries extractConfig builds are the default entry
    when one of the five top-level keys is present, then one entry per
    name of entryNames, a name [n] being there exactly when some label
    [watchcow.<n>.<f>] exists with [n] free of dots and [f] an entry
    field or any [control.*] key; with none of either, one synthesized
    default entry, whose fields are the app's top-level ones (title the
    display name, protocol, port, path, ui type, all_users, no_display,
    redirect from the top-level labels, icon the app's icon, no file
    types, no control).  In every entry an unset field takes its default,
    an unset port the app's port (the top-level service_port label when
    set, otherwise the container's first host port), and a set field the
    label's value; the icon is the entry's icon label, else the app's
    icon (extractConfig's defaultIcon, itself the top-level icon label
    when set) for the default entry and the entry name's icon for a
    named one. *)
Theorem ParseEntries_spec (bi : string -> string) (labels : gmap string string)
    (it : list (string * string)) (nit : list string)
    (displayName defaultIcon firstHostPort : string)
    (Hit : go_range labels it) (Hnit : nit ≡ₚ elements (scanNames it)) :
  let E := extractEntries bi labels nit displayName defaultIcon firstHostPort in
  map eName E = match (if hasDefaultEntry labels then [""] else []) ++ nit with
                | [] => [""]
                | l => l
                end /\
  NoDup nit /\
  (forall n, n ∈ nit <->
     exists f v, labels !! ("watchcow." +:+ n +:+ "." +:+ f) = Some v /\
       hasChar n "." = false /\ isEntryField f = true) /\
  (forall e, e ∈ E -> entryDefaults labels displayName firstHostPort e) /\
  (forall e, e ∈ E -> entryLabelValues labels displayName firstHostPort e) /\
  (forall imageIcon, defaultIcon = getLabel labels "watchcow.icon" imageIcon ->
     forall e, e ∈ E ->
       eIcon e = getLabel labels (entryPrefix (eName e) +:+ "icon")
                   (if String.eqb (eName e) "" then defaultIcon else bi (eName e))) /\
  (hasDefaultEntry labels = false -> nit = [] ->
     exists e, E = [e] /\ eName e = "" /\ eTitle e = displayName /\
       eProtocol e = getLabel labels "watchcow.protocol" "http" /\
       ePort e = getLabel labels "watchcow.service_port" firstHostPort /\
       ePath e = getLabel labels "watchcow.path" "/" /\
       eUIType e = getLabel labels "watchcow.ui_type" "url" /\
       eAllUsers e = String.eqb (getLabel labels "watchcow.all_users" "true") "true" /\
       eIcon e = defaultIcon /\ eFileTypes e = [] /\
       eNoDisplay e = String.eqb (getLabel labels "watchcow.no_display" "false") "true" /\
       eControl e = None /\
       eRedirect e = getLabel labels "watchcow.redirect" "").
Proof.
  intros E. unfold E, extractEntries. rewrite appPort_getLabel.
  pose proof (ParseEntries_names bi labels nit displayName defaultIcon
                (getLabel labels "watchcow.service_port" firstHostPort)) as Hn.
  split; [|split; [|split; [|split; [|split; [|split]]]]].
  - rewrite <- Hn.
    destruct (ParseEntries _ _ _ _ _ _); reflexivity.
  - rewrite Hnit. apply NoDup_elements.
  - intros n. rewrite Hnit, elem_of_elements, scanNames_spec. split.
    + intros (key & v & Hin & Hp & f & Hs & Hf).
      apply splitN2_two in Hs as [Hs Hc].
      exists f, v. split; [|split; assumption].
      apply elem_of_map_to_list. rewrite <- Hit.
      rewrite (hasPrefix_trim _ _ Hp), Hs in Hin. exact Hin.
    + intros (f & v & Hl & Hc & Hf).
      exists ("watchcow." +:+ n +:+ "." +:+ f), v.
      split; [rewrite Hit; by apply elem_of_map_to_list|].
      split; [apply hasPrefix_app|].
      exists f. rewrite trimPrefix_app. split; [|exact Hf].
      by apply splitN2_two.
  - intros e.
    destruct (ParseEntries bi labels nit displayName defaultIcon
                (getLabel labels "watchcow.service_port" firstHostPort)) as [|e0 l] eqn:EP.
    + intros He. apply list_elem_of_singleton in He as ->.
      unfold entryDefaults, entryPrefix. cbn [eName eProtocol ePath eUIType eAllUsers
        eNoDisplay eTitle ePort]. rewrite String.eqb_refl.
      repeat split; intros H; rewrite ?(getLabel_unset _ _ _ H); reflexivity.
    + rewrite <- EP. unfold ParseEntries. rewrite elem_of_app. intros [He|He].
      * destruct (hasDefaultEntry labels); [|by apply elem_of_nil in He].
        apply list_elem_of_singleton in He as ->. apply parsed_defaults.
      * apply list_elem_of_In, in_map_iff in He as (n & <- & _). apply parsed_defaults.
  - intros e.
    destruct (ParseEntries bi labels nit displayName defaultIcon
                (getLabel labels "watchcow.service_port" firstHostPort)) as [|e0 l] eqn:EP.
    + intros He. apply list_elem_of_singleton in He as ->.
      assert (Hd : hasDefaultEntry labels = false).
      { unfold ParseEntries in EP. destruct (hasDefaultEntry labels); [discriminate|done]. }
      unfold hasDefaultEntry in Hd. apply orb_false_iff in Hd as [Hd _].
      apply orb_false_iff in Hd as [_ Ht].
      unfold entryLabelValues, entryPrefix.
      cbn [eName eTitle eProtocol ePort ePath eUIType eAllUsers eNoDisplay eRedirect].
      rewrite String.eqb_refl.
      change ("watchcow." +:+ "title") with "watchcow.title".
      change ("watchcow." +:+ "service_port") with "watchcow.service_port".
      rewrite (getLabel_absent _ _ _ Ht), getLabel_idem.
      repeat split; reflexivity.
    + rewrite <- EP. unfold ParseEntries. rewrite elem_of_app. intros [He|He].
      * destruct (hasDefaultEntry labels); [|by apply elem_of_nil in He].
        apply list_elem_of_singleton in He as ->. apply parsed_values.
      * apply list_elem_of_In, in_map_iff in He as (n & <- & _). apply parsed_values.
  - intros imageIcon Hdi e.
    destruct (ParseEntries bi labels nit displayName defaultIcon
                (getLabel labels "watchcow.service_port" firstHostPort)) as [|e0 l] eqn:EP.
    + intros He. apply list_elem_of_singleton in He as ->.
      cbn [eName eIcon]. rewrite String.eqb_refl. unfold entryPrefix.
      rewrite String.eqb_refl. change ("watchcow." +:+ "icon") with "watchcow.icon".
      rewrite Hdi. symmetry. apply getLabel_idem.
    + rewrite <- EP. unfold ParseEntries. rewrite elem_of_app. intros [He|He].
      * destruct (hasDefaultEntry labels); [|by apply elem_of_nil in He].
        apply list_elem_of_singleton in He as ->.
        rewrite withPort_name. cbn [eName parseEntry].
        exact (proj2 (parsed_values bi labels "" displayName defaultIcon firstHostPort)).
      * apply list_elem_of_In, in_map_iff in He as (n & <- & _).
        rewrite withPort_name. cbn [eName parseEntry].
        exact (proj2 (parsed_values bi labels n displayName defaultIcon firstHostPort)).
  - intros Hd ->. unfold ParseEntries. rewrite Hd. cbn [app map].
    eexists. split; [reflexivity|]. cbn.
    repeat split; reflexivity.
Qed.

Definition sampleLabels : gmap string string :=
  {[ "watchcow.service_port" := "8080"; "watchcow.admin.title" := "Admin" ]}.

Lemma ParseEntries_spec_witness :
  go_range sampleLabels (map_to_list sampleLabels) /\
  ["admin"] ≡ₚ elements (scanNames (map_to_list sampleLabels)) /\
  (let E := extractEntries (fun n => n) sampleLabels ["admin"] "Memos" "icon.png" "5230" in
   map eName E = match (if hasDefaultEntry sampleLabels then [""] else []) ++ ["admin"] with
                 | [] => [""]
                 | l => l
                 end /\
   NoDup ["admin"] /\
   (forall n, n ∈ ["admin"] <->
      exists f v, sampleLabels !! ("watchcow." +:+ n +:+ "." +:+ f) = Some v /\
        hasChar n "." = false /\ isEntryField f = true) /\
   (forall e, e ∈ E -> entryDefaults sampleLabels "Memos" "5230" e) /\
   (forall e, e ∈ E -> entryLabelValues sampleLabels "Memos" "5230" e) /\
   (forall imageIcon, "icon.png" = getLabel sampleLabels "watchcow.icon" imageIcon ->
      forall e, e ∈ E ->
        eIcon e = getLabel sampleLabels (entryPrefix (eName e) +:+ "icon")
                    (if String.eqb (eName e) "" then "icon.png" else eName e)) /\
   (hasDefaultEntry sampleLabels = false -> ["admin"] = [] ->
      exists e, E = [e] /\ eName e = "" /\ eTitle e = "Memos" /\
        eProtocol e = getLabel sampleLabels "watchcow.protocol" "http" /\
        ePort e = getLabel sampleLabels "watchcow.service_port" "5230" /\
        ePath e = getLabel sampleLabels "watchcow.path" "/" /\
        eUIType e = getLabel sampleLabels "watchcow.ui_type" "url" /\
        eAllUsers e = String.eqb (getLabel sampleLabels "watchcow.all_users" "true") "true" /\
        eIcon e = "icon.png" /\ eFileTypes e = [] /\
        eNoDisplay e = String.eqb (getLabel sampleLabels "watchcow.no_display" "false") "true" /\
        eControl e = None /\
        eRedirect e = getLabel sampleLabels "watchcow.redirect" "")).
Proof.
  assert (Hit : go_range sampleLabels (map_to_list sampleLabels)) by (unfold go_range; reflexivity).
  assert (Hnit : ["admin"] ≡ₚ elements (scanNames (map_to_list sampleLabels))).
  { assert (Hel : elements (scanNames (map_to_list sampleLabels)) = ["admin"])
      by (vm_compute; reflexivity).
    rewrite Hel. reflexivity. }
  split; [exact Hit|]. split; [exact Hnit|].
  exact (ParseEntries_spec (fun n => n) sampleLabels (map_to_list sampleLabels) ["admin"]
           "Memos" "icon.png" "5230" Hit Hnit).
Defined.

(** Against the spec: the named entry [admin] has no port label and gets
    the top-level service_port 8080, not the container's first host port
    5230. *)
Lemma named_entry_port_not_first_host_port :
  map (fun e => (eName e, ePort e))
    (extractEntries (fun n => n) sampleLabels
       (elements (scanNames (map_to_list sampleLabels))) "Memos" "icon.png" "5230")
  = [(""%string, "8080"%string); ("admin"%string, "8080"%string)].
Proof. vm_compute. reflexivity. Qed.

End EntryFacts.

(* ------------------------------------------------------------------ *)
(** ** The App model: entries and the registry *)

Module AppFacts.
Import AppModel AppOps.

Lemma getEntryIn_some (l : list Entry) (n : string) (e : Entry) :
  getEntryIn l n = Some e -> e ∈ l /\ eName e = n.
Proof.
  induction l as [|x l IH]; cbn; [discriminate|].
  destruct (String.eqb_spec (eName x) n) as [E|E].
  - intros [= <-]. split; [apply elem_of_cons; by left|exact E].
  - intros H. destruct (IH H) as [H1 H2]. split; [apply elem_of_cons; by right|exact H2].
Qed.

Lemma getEntryIn_none (l : list Entry) (n : string) :
  getEntryIn l n = None <-> Forall (fun e => eName e <> n) l.
Proof.
  induction l as [|x l IH]; cbn.
  - split; [constructor|reflexivity].
  - destruct (String.eqb_spec (eName x) n) as [E|E].
    + split; [discriminate|]. intros H. inversion H; contradiction.
    + rewrite IH, Forall_cons. tauto.
Qed.

(** App.GetDefaultEntry finds nothing exactly when the app has no entries;
    what it finds is one of the app's entries; it finds an entry named
    [""] whenever the app has one, and the first entry otherwise. *)
Theorem GetDefaultEntry_spec (a : App) :
  (GetDefaultEntry a = None <-> aEntries a = []) /\
  (forall e, GetDefaultEntry a = Some e -> e ∈ aEntries a) /\
  ((exists e, e ∈ aEntries a /\ eName e = "") ->
     exists e, GetDefaultEntry a = Some e /\ eName e = "") /\
  (Forall (fun e => eName e <> "") (aEntries a) -> GetDefaultEntry a = head (aEntries a)).
Proof.
  unfold GetDefaultEntry, GetEntry.
  destruct (getEntryIn (aEntries a) "") as [d|] eqn:Ed.
  - apply getEntryIn_some in Ed as [Hin Hn].
    split; [|split; [|split]].
    + split; [discriminate|]. intros E. rewrite E in Hin. by apply elem_of_nil in Hin.
    + by intros e [= <-].
    + intros _. by exists d.
    + intros HF. rewrite Forall_forall in HF. by destruct (HF d Hin).
  - apply getEntryIn_none in Ed. split; [|split; [|split]].
    + destruct (aEntries a); split; done.
    + intros e. destruct (aEntries a) as [|x l]; [discriminate|].
      intros [= <-]. apply elem_of_cons. by left.
    + intros [e [Hin Hn]]. rewrite Forall_forall in Ed. by destruct (Ed e Hin).
    + intros _. by destruct (aEntries a).
Qed.

Lemma GetDefaultEntry_spec_witness :
  let a := mkApp "memos" "" "Memos" "" "" "c1" "memos" "" "" "" "" "" false
             [mkEntry "admin" "Admin" "http" "5230" "/admin" "url" true "" [] false None "";
              mkEntry "" "Memos" "http" "5230" "/" "url" true "" [] false None ""]
             [] [] "" "" ∅ "running" in
  exists e, GetDefaultEntry a = Some e /\ eName e = "".
Proof.
  intros a. apply (proj1 (proj2 (proj2 (GetDefaultEntry_spec a)))).
  eexists. split; [apply elem_of_cons; right; apply elem_of_cons; by left|reflexivity].
Defined.

(** App.HasRedirect holds exactly when one of the app's entries has a
    redirect configuration; that configuration pairs the entry's Redirect
    host with its Port. *)
Theorem HasRedirect_iff (a : App) :
  (HasRedirect a = true <-> exists e, e ∈ aEntries a /\ is_Some (GetRedirectConfig e)) /\
  (forall e rc, GetRedirectConfig e = Some rc -> rcHost rc = eRedirect e /\ rcPort rc = ePort e).
Proof.
  split.
  - unfold HasRedirect. induction (aEntries a) as [|x l IH]; cbn.
    + split; [discriminate|]. intros [e [He _]]. by apply elem_of_nil in He.
    + unfold GetRedirectConfig at 1. destruct (String.eqb (eRedirect x) "") eqn:E; cbn.
      * rewrite IH. split.
        -- intros [e [He Hs]]. exists e. split; [apply elem_of_cons; by right|exact Hs].
        -- intros [e [He Hs]]. apply elem_of_cons in He as [->|He].
           ++ unfold GetRedirectConfig in Hs. rewrite E in Hs. by destruct Hs.
           ++ by exists e.
      * split; [|reflexivity]. intros _. exists x. split; [apply elem_of_cons; by left|].
        unfold GetRedirectConfig. rewrite E. by eexists.
  - intros e rc. unfold GetRedirectConfig.
    destruct (String.eqb (eRedirect e) ""); [discriminate|]. by intros [= <-].
Qed.

(** Registry.GetByContainerID, whatever the order of the registry's
    iteration, returns a registered app with the requested container ID,
    and returns nothing only when no registered app has that ID; when at
    most one registered app has the ID, the answer does not depend on the
    iteration order. *)
Theorem GetByContainerID_spec (r : Registry) (it : list (string * App)) (containerID : string)
    (Hit : registry_range r it) :
  (forall app, GetByContainerID it containerID = Some app ->
     aContainerID app = containerID /\ exists appName, Get r appName = Some app) /\
  (GetByContainerID it containerID = None <->
     forall appName app, Get r appName = Some app -> aContainerID app <> containerID) /\
  ((forall n1 n2 a1 a2, Get r n1 = Some a1 -> Get r n2 = Some a2 ->
      aContainerID a1 = containerID -> aContainerID a2 = containerID -> a1 = a2) ->
   forall it', registry_range r it' ->
   GetByContainerID it' containerID = GetByContainerID it containerID).
Proof.
  assert (Hsome : forall it0, registry_range r it0 -> forall app,
            GetByContainerID it0 containerID = Some app ->
            aContainerID app = containerID /\ exists appName, Get r appName = Some app).
  { intros it0 H0 app. unfold registry_range in H0.
    assert (Hsub : forall n x, (n, x) ∈ it0 -> r !! n = Some x).
    { intros n x Hx. apply elem_of_map_to_list. by rewrite <- H0. }
    clear H0. induction it0 as [|[n x] it0 IH]; cbn; [discriminate|].
    destruct (String.eqb_spec (aContainerID x) containerID) as [E|E].
    - intros [= <-]. split; [exact E|]. exists n. apply Hsub. apply elem_of_cons. by left.
    - intros H. apply IH; [|exact H]. intros n' x' Hx. apply Hsub. apply elem_of_cons. by right. }
  assert (Hnone : forall it0, registry_range r it0 ->
            (GetByContainerID it0 containerID = None <->
             forall appName app, Get r appName = Some app -> aContainerID app <> containerID)).
  { intros it0 H0. unfold Get.
    assert (Hiff : forall n x, (n, x) ∈ it0 <-> r !! n = Some x).
    { intros n x. rewrite <- elem_of_map_to_list. by rewrite H0. }
    transitivity (forall n x, (n, x) ∈ it0 -> aContainerID x <> containerID).
    - clear Hiff H0. induction it0 as [|[n x] it0 IH]; cbn.
      + split; [|reflexivity]. intros _ n x Hx. by apply elem_of_nil in Hx.
      + destruct (String.eqb_spec (aContainerID x) containerID) as [E|E].
        * split; [discriminate|]. intros H. exfalso. apply (H n x); [|exact E].
          apply elem_of_cons. by left.
        * rewrite IH. split.
          -- intros H n' x' Hx. apply elem_of_cons in Hx as [[= -> ->]|Hx]; [exact E|].
             by apply (H n' x').
          -- intros H n' x' Hx. apply (H n' x'). apply elem_of_cons. by right.
    - split; intros H n x Hx; apply (H n x); by apply Hiff. }
  split; [by apply Hsome|]. split; [by apply Hnone|].
  intros Huniq it' Hit'.
  destruct (GetByContainerID it containerID) as [a1|] eqn:E1.
  - destruct (GetByContainerID it' containerID) as [a2|] eqn:E2.
    + destruct (Hsome it Hit a1 E1) as [C1 [n1 G1]].
      destruct (Hsome it' Hit' a2 E2) as [C2 [n2 G2]].
      f_equal. exact (Huniq n2 n1 a2 a1 G2 G1 C2 C1).
    + destruct (Hsome it Hit a1 E1) as [C1 [n1 G1]].
      exfalso. exact (proj1 (Hnone it' Hit') E2 n1 a1 G1 C1).
  - apply (Hnone it' Hit'). by apply (Hnone it Hit).
Qed.

Definition regApp (name cid : string) : App :=
  mkApp name "" name "" "" cid name "" "" "" "" "" false [] [] [] "" "" ∅ "running".

Definition sampleRegistry : Registry :=
  {[ "memos" := regApp "memos" "c1"; "gitea" := regApp "gitea" "c2" ]}.

Lemma GetByContainerID_spec_witness :
  registry_range sampleRegistry (map_to_list sampleRegistry) /\
  GetByContainerID (map_to_list sampleRegistry) "c2" = Some (regApp "gitea" "c2") /\
  (forall app, GetByContainerID (map_to_list sampleRegistry) "c2" = Some app ->
     aContainerID app = "c2" /\ exists appName, Get sampleRegistry appName = Some app).
Proof.
  assert (H : registry_range sampleRegistry (map_to_list sampleRegistry))
    by (unfold registry_range; reflexivity).
  split; [exact H|]. split; [vm_compute; reflexivity|].
  exact (proj1 (GetByContainerID_spec sampleRegistry _ "c2" H)).
Defined.

End AppFacts.

(* ------------------------------------------------------------------ *)
(** ** Container keys: the image part *)

Module KeyImageFacts.
Import StringFacts.

(** ContainerKey.Image recovers the image from a key NewContainerKey
    built, whenever the image name contains no ['|']. *)
Theorem Image_NewContainerKey (image : string) (ports : gmap string string)
    (it : list (string * string)) :
  hasChar image "|" = false -> KeyOps.Image (Key.NewContainerKey image ports it) = image.
Proof.
  intros H. unfold KeyOps.Image, Key.NewContainerKey, splitN2.
  destruct (decide (size ports = 0)).
  - rewrite <- (KeyFacts.append_empty_r (image +:+ "|")), string_app_assoc.
    change (image +:+ "|" +:+ "") with (image +:+ String "|" "" +:+ "").
    by rewrite cutc_app.
  - change (image +:+ "|" +:+ ?j) with (image +:+ String "|" "" +:+ j).
    by rewrite cutc_app.
Qed.

Lemma Image_NewContainerKey_witness :
  hasChar "nginx:alpine" "|" = false /\
  KeyOps.Image (Key.NewContainerKey "nginx:alpine" {[ "80" := "8080" ]} [("80", "8080")])
    = "nginx:alpine".
Proof.
  assert (H : hasChar "nginx:alpine" "|" = false) by reflexivity.
  split; [exact H|]. exact (Image_NewContainerKey _ _ _ H).
Defined.

End KeyImageFacts.

(* ------------------------------------------------------------------ *)
(** ** The redirect resolver: query strings and short paths *)

Module RedirectExtraFacts.
Import AppModel Redirect StringFacts RedirectFacts.

(** sanitizeQueryString returns its input or the empty string, always
    returns a string the validation pattern accepts, and is idempotent. *)
Theorem sanitizeQueryString_idem (qs : string) :
  (sanitizeQueryString qs = qs \/ sanitizeQueryString qs = "") /\
  validQueryString (sanitizeQueryString qs) = true /\
  sanitizeQueryString (sanitizeQueryString qs) = sanitizeQueryString qs.
Proof.
  split; [|split; [apply validQueryString_sanitize|]].
  - unfold sanitizeQueryString. destruct (validQueryString qs); [by left|by right].
  - unfold sanitizeQueryString at 1. by rewrite validQueryString_sanitize.
Qed.

(** A request path that after [/redirect/] holds no second segment is
    answered with 400, whatever the registry holds. *)
Theorem ServeHTTP_short_path (render : redirectTemplateData -> string) (reg : Registry)
    (urlPath rawQuery : string) :
  hasChar (trimPrefix urlPath "/redirect/") "/" = false ->
  status (ServeHTTP render reg urlPath rawQuery) = 400.
Proof.
  intros H. unfold ServeHTTP, splitN3. rewrite cutc_none by exact H. reflexivity.
Qed.

Lemma ServeHTTP_short_path_witness :
  hasChar (trimPrefix "/redirect/memos" "/redirect/") "/" = false /\
  status (ServeHTTP (fun _ => "") ∅ "/redirect/memos" "") = 400.
Proof.
  assert (H : hasChar (trimPrefix "/redirect/memos" "/redirect/") "/" = false) by reflexivity.
  split; [exact H|]. exact (ServeHTTP_short_path _ _ _ _ H).
Defined.

(** The entry segment [_] and the empty entry segment both denote the
    default entry: the two requests get the same answer. *)
Theorem ServeHTTP_default_alias (render : redirectTemplateData -> string) (reg : Registry)
    (app rawQuery : string) (tail : option string) :
  hasChar app "/" = false ->
  ServeHTTP render reg (redirectURLPath app "_" tail) rawQuery =
  ServeHTTP render reg (redirectURLPath app "" tail) rawQuery.
Proof.
  intros H. rewrite !ServeHTTP_unfold by (exact H || reflexivity). reflexivity.
Qed.

Lemma ServeHTTP_default_alias_witness :
  hasChar "memos" "/" = false /\
  ServeHTTP (fun _ => "") ∅ (redirectURLPath "memos" "_" None) "" =
  ServeHTTP (fun _ => "") ∅ (redirectURLPath "memos" "" None) "".
Proof.
  assert (H : hasChar "memos" "/" = false) by reflexivity.
  split; [exact H|]. exact (ServeHTTP_default_alias _ _ _ _ None H).
Defined.

End RedirectExtraFacts.

(* ------------------------------------------------------------------ *)
(** ** The controller: the queue, events, the worker, uninstall and
    registration *)

Module MonitorEventFacts.
Import AppModel MonitorState MonitorOps.

Lemma queueOperation_frame (op : AppOperation) (m : Monitor) :
  containers (queueOperation op m) = containers m /\
  registry (queueOperation op m) = registry m /\
  installer (queueOperation op m) = installer m /\
  cliLog (queueOperation op m) = cliLog m.
Proof. unfold queueOperation. by destruct (decide _). Qed.

Lemma queueOperation_wf (op : AppOperation) (m : Monitor) :
  opType op ∈ workerTypes -> queueWellFormed m -> queueWellFormed (queueOperation op m).
Proof.
  intros Ht [Hl Hf]. unfold queueOperation.
  destruct (decide (length (opQueue m) < opQueueCap)) as [L|L]; [|by split].
  split; cbn.
  - rewrite length_app. cbn. lia.
  - apply Forall_app. split; [exact Hf|]. by apply Forall_singleton.
Qed.

Lemma wf_setContainers (c : gmap string ContainerState) (m : Monitor) :
  queueWellFormed (setContainers c m) <-> queueWellFormed m.
Proof. reflexivity. Qed.

Lemma opQueue_TriggerUninstall (appName : string) (m : Monitor) :
  opQueue (TriggerUninstall appName m) = opQueue m.
Proof.
  unfold TriggerUninstall. destruct (String.eqb appName ""); [reflexivity|].
  cbn. by destruct (installer m).
Qed.

Lemma scanOne_wf (getStoredConfig : string -> gmap string string -> option StoredConfig)
    (ctr : Listed) (m m' : Monitor) :
  scanOne getStoredConfig ctr m = Some m' -> queueWellFormed m -> queueWellFormed m'.
Proof.
  unfold scanOne. destruct (Nat.ltb _ 12); [discriminate|].
  destruct (lNames ctr) as [|name0 ?]; [discriminate|].
  intros H Hm. destruct (negb _); [injection H as <-; exact Hm|].
  destruct (Monitor.shouldInstall _); [|destruct (getStoredConfig _ _)];
    injection H as <-; try (apply queueOperation_wf; [by left|]); exact Hm.
Qed.

Lemma scanContainers_wf (getStoredConfig : string -> gmap string string -> option StoredConfig)
    (listed : option (list Listed)) (m m' : Monitor) :
  scanContainers getStoredConfig listed m = Some m' -> queueWellFormed m -> queueWellFormed m'.
Proof.
  destruct listed as [ctrs|]; cbn; [|by intros [= <-]].
  revert m. induction ctrs as [|ctr ctrs IH]; intros m; cbn; [by intros [= <-]|].
  destruct (scanOne getStoredConfig ctr m) as [m1|] eqn:E; cbn; [|discriminate].
  intros H Hm. apply (IH m1 H). exact (scanOne_wf _ _ _ _ E Hm).
Qed.

(** Whatever the controller does, in any order (the startup scan, Docker
    events, install and uninstall requests, worker steps), the operation
    queue never holds more than 100 operations and only ever holds
    operations of a type the worker's switch handles, so the worker
    never drops one through its switch: provided processContainerStart,
    as in the source, queues nothing. *)
Theorem monitor_queue_invariant (PortMap : Type) (inspect : string -> option (Inspected PortMap))
    (extractPorts : PortMap -> gmap string string)
    (getStoredConfig : string -> gmap string string -> option StoredConfig)
    (processContainerStart : AppOperation -> Monitor -> Monitor)
    (Hpcs : forall op m, opQueue (processContainerStart op m) = opQueue m)
    (m m' : Monitor) :
  rtc (monitorStep PortMap inspect extractPorts getStoredConfig processContainerStart) m m' ->
  queueWellFormed m -> queueWellFormed m'.
Proof.
  induction 1 as [m|m1 m2 m3 Hstep _ IH]; [done|]. intros H1. apply IH. clear IH.
  destruct Hstep as [listed m m' Hs|ev m|cid cfg m|appName m|m m' Hw].
  - exact (scanContainers_wf _ _ _ _ Hs H1).
  - unfold handleDockerEvent.
    destruct (String.eqb (Action ev) "start").
    + destruct (inspect _) as [info|]; [|exact H1].
      destruct (Monitor.shouldInstall _); [|destruct (getStoredConfig _ _)];
        try (apply queueOperation_wf; [by left|]); exact H1.
    + destruct (String.eqb (Action ev) "stop" || String.eqb (Action ev) "die").
      * apply queueOperation_wf; [by right; right; left|].
        by destruct (containers m !! _).
      * destruct (String.eqb (Action ev) "destroy"); [|exact H1].
        apply queueOperation_wf; [by right; right; right; left|exact H1].
  - unfold TriggerInstall. destruct (containers m !! cid) as [st|]; [|exact H1].
    destruct (negb _); [exact H1|]. destruct (csInstalled st); [exact H1|].
    apply queueOperation_wf; [by right; left|exact H1].
  - unfold queueWellFormed. by rewrite opQueue_TriggerUninstall.
  - unfold workerStep in Hw. destruct (opQueue m) as [|op rest] eqn:Eq; [discriminate|].
    injection Hw as <-. destruct H1 as [Hl Hf]. rewrite Eq in Hl, Hf.
    apply Forall_cons in Hf as [_ Hf].
    assert (Hq : opQueue (dispatch processContainerStart op (setOpQueue rest m)) = rest).
    { unfold dispatch.
      destruct (String.eqb (opType op) "container_start" || _); [by rewrite Hpcs|].
      destruct (String.eqb (opType op) "stop").
      - unfold processStop. cbn [opQueue setOpQueue containers installer].
        destruct (containers m !! _) as [st|]; [|reflexivity].
        destruct (negb _); [reflexivity|]. by destruct (installer m).
      - destruct (String.eqb (opType op) "destroy"); [|reflexivity].
        unfold processDestroy. cbn [opQueue setOpQueue containers].
        destruct (containers m !! _) as [st|]; [|reflexivity].
        by destruct (_ && _). }
    unfold queueWellFormed. rewrite Hq. cbn in Hl. split; [lia|exact Hf].
Qed.

Lemma monitor_queue_invariant_witness :
  let m := mkMonitor ∅ ∅ [] None [] in
  let m' := handleDockerEvent unit (fun _ => None) (fun _ => ∅) (fun _ _ => None)
              (mkMessage "destroy" "c1" ∅) m in
  queueWellFormed m /\ queueWellFormed m' /\ opQueue m' = [simpleOp "destroy" "c1"].
Proof.
  intros m m'.
  assert (H : queueWellFormed m) by (split; [cbn; unfold opQueueCap; lia|constructor]).
  split; [exact H|]. split; [|reflexivity].
  refine (monitor_queue_invariant unit (fun _ => None) (fun _ => ∅) (fun _ _ => None)
            (fun _ m0 => m0) (fun _ _ => eq_refl) m m' _ H).
  apply rtc_once. apply step_event.
Defined.

Lemma queueOperation_empty (op : AppOperation) (m : Monitor) :
  opQueue m = [] -> queueOperation op m = setOpQueue [op] m.
Proof. intros H. unfold queueOperation. rewrite H. reflexivity. Qed.

Lemma handle_not_start (PortMap : Type) (inspect : string -> option (Inspected PortMap))
    (extractPorts : PortMap -> gmap string string)
    (getStoredConfig : string -> gmap string string -> option StoredConfig)
    (ev : Message) (m : Monitor) :
  Action ev <> "start" ->
  handleDockerEvent PortMap inspect extractPorts getStoredConfig ev m =
  if String.eqb (Action ev) "stop" || String.eqb (Action ev) "die" then
    queueOperation (simpleOp "stop" (shortID (ActorID ev)))
      (match containers m !! shortID (ActorID ev) with
       | Some state =>
           setContainers (<[shortID (ActorID ev) := setState "exited" state]> (containers m)) m
       | None => m
       end)
  else if String.eqb (Action ev) "destroy" then
    queueOperation (simpleOp "destroy" (shortID (ActorID ev))) m
  else m.
Proof.
  intros H. unfold handleDockerEvent. cbv zeta.
  destruct (String.eqb_spec (Action ev) "start"); [contradiction|reflexivity].
Qed.

(** A destroy event for a tracked container, handled when the queue is
    empty and followed by one step of the worker, removes the container
    from tracking and unregisters its app, leaves the other containers
    alone and the queue empty. *)
Theorem destroy_event_then_worker (PortMap : Type)
    (inspect : string -> option (Inspected PortMap))
    (extractPorts : PortMap -> gmap string string)
    (getStoredConfig : string -> gmap string string -> option StoredConfig)
    (processContainerStart : AppOperation -> Monitor -> Monitor)
    (ev : Message) (m : Monitor) (state : ContainerState) :
  Action ev = "destroy" -> opQueue m = [] ->
  containers m !! shortID (ActorID ev) = Some state ->
  exists m',
    workerStep processContainerStart
      (handleDockerEvent PortMap inspect extractPorts getStoredConfig ev m) = Some m' /\
    containers m' !! shortID (ActorID ev) = None /\
    (forall id, id <> shortID (ActorID ev) -> containers m' !! id = containers m !! id) /\
    Get (registry m') (csAppName state) = None /\
    opQueue m' = [].
Proof.
  intros Ha Hq Hs. rewrite handle_not_start by (rewrite Ha; discriminate).
  rewrite Ha. cbn [String.eqb orb Ascii.eqb Bool.eqb].
  rewrite queueOperation_empty by exact Hq.
  unfold workerStep. cbn [opQueue setOpQueue].
  eexists. split; [reflexivity|].
  unfold dispatch. cbn [opType simpleOp String.eqb orb Ascii.eqb Bool.eqb].
  unfold processDestroy. cbn [containers setOpQueue opContainerID simpleOp].
  rewrite Hs.
  destruct (csInstalled state && _); cbn;
    (split; [apply lookup_delete_eq|]; split; [intros id Hid; by apply lookup_delete_ne|];
     split; [apply lookup_delete_eq|reflexivity]).
Qed.

Lemma destroy_event_then_worker_witness :
  let st := mkContainerState "c1" "memos" "memos:1" "exited" ∅ ∅ "" "watchcow.memos" true in
  let m := mkMonitor {[ "c1" := st ]} {[ "watchcow.memos" := AppFacts.regApp "watchcow.memos" "c1" ]}
             [] (Some "appcenter-cli") [] in
  let ev := mkMessage "destroy" "c1" ∅ in
  Action ev = "destroy" /\ opQueue m = [] /\ containers m !! shortID (ActorID ev) = Some st /\
  exists m',
    workerStep (fun _ m => m) (handleDockerEvent unit (fun _ => None) (fun _ => ∅) (fun _ _ => None) ev m)
      = Some m' /\
    containers m' !! shortID (ActorID ev) = None /\
    (forall id, id <> shortID (ActorID ev) -> containers m' !! id = containers m !! id) /\
    Get (registry m') (csAppName st) = None /\
    opQueue m' = [].
Proof.
  intros st m ev.
  assert (H1 : Action ev = "destroy") by reflexivity.
  assert (H2 : opQueue m = []) by reflexivity.
  assert (H3 : containers m !! shortID (ActorID ev) = Some st) by reflexivity.
  split; [exact H1|]. split; [exact H2|]. split; [exact H3|].
  exact (destroy_event_then_worker unit _ _ _ _ ev m st H1 H2 H3).
Defined.

(** A stop or die event for a tracked container, handled when the queue
    is empty and followed by one step of the worker, marks the container
    exited and keeps tracking it, never touches the registry, and runs
    the installer's stop exactly when the container is installed and an
    installer is present. *)
Theorem stop_event_then_worker (PortMap : Type)
    (inspect : string -> option (Inspected PortMap))
    (extractPorts : PortMap -> gmap string string)
    (getStoredConfig : string -> gmap string string -> option StoredConfig)
    (processContainerStart : AppOperation -> Monitor -> Monitor)
    (ev : Message) (m : Monitor) (state : ContainerState) :
  (Action ev = "stop" \/ Action ev = "die") -> opQueue m = [] ->
  containers m !! shortID (ActorID ev) = Some state ->
  exists m',
    workerStep processContainerStart
      (handleDockerEvent PortMap inspect extractPorts getStoredConfig ev m) = Some m' /\
    containers m' = <[shortID (ActorID ev) := setState "exited" state]> (containers m) /\
    registry m' = registry m /\
    opQueue m' = [] /\
    cliLog m' = cliLog m ++
      (if csInstalled state && bool_decide (is_Some (installer m))
       then [["stop"; csAppName state]] else []).
Proof.
  intros Ha Hq Hs.
  assert (Hstop : String.eqb (Action ev) "stop" || String.eqb (Action ev) "die" = true)
    by (destruct Ha as [-> | ->]; reflexivity).
  rewrite handle_not_start by (destruct Ha as [-> | ->]; discriminate).
  rewrite Hstop, Hs. rewrite queueOperation_empty by exact Hq.
  unfold workerStep. cbn [opQueue setOpQueue].
  eexists. split; [reflexivity|].
  unfold dispatch. cbn [opType simpleOp String.eqb orb Ascii.eqb Bool.eqb].
  unfold processStop. cbn [containers setContainers setOpQueue opContainerID simpleOp].
  rewrite lookup_insert_eq. cbn [setState csInstalled csAppName].
  destruct (csInstalled state); cbn; [|by rewrite app_nil_r].
  destruct (installer m); cbn; [|by rewrite app_nil_r]. done.
Qed.

Lemma stop_event_then_worker_witness :
  let st := mkContainerState "c1" "memos" "memos:1" "running" ∅ ∅ "watchcow.memos" "watchcow.memos" true in
  let m := mkMonitor {[ "c1" := st ]} ∅ [] (Some "appcenter-cli") [] in
  let ev := mkMessage "die" "c1" ∅ in
  (Action ev = "stop" \/ Action ev = "die") /\ opQueue m = [] /\
  containers m !! shortID (ActorID ev) = Some st /\
  exists m',
    workerStep (fun _ m => m) (handleDockerEvent unit (fun _ => None) (fun _ => ∅) (fun _ _ => None) ev m)
      = Some m' /\
    containers m' = <[shortID (ActorID ev) := setState "exited" st]> (containers m) /\
    registry m' = registry m /\
    opQueue m' = [] /\
    cliLog m' = cliLog m ++
      (if csInstalled st && bool_decide (is_Some (installer m))
       then [["stop"; csAppName st]] else []).
Proof.
  intros st m ev.
  assert (H1 : Action ev = "stop" \/ Action ev = "die") by (right; reflexivity).
  assert (H2 : opQueue m = []) by reflexivity.
  assert (H3 : containers m !! shortID (ActorID ev) = Some st) by reflexivity.
  split; [exact H1|]. split; [exact H2|]. split; [exact H3|].
  exact (stop_event_then_worker unit _ _ _ _ ev m st H1 H2 H3).
Defined.

(** A start event whose container inspects successfully tracks the
    container as running with the inspected image, ports and labels,
    keeping the app name and installed flag it had; it queues an
    operation (the queue having room) exactly when the labels ask for
    installation or the store holds a config for the container, and it
    never touches the registry or runs the installer. *)
Theorem start_event_spec (PortMap : Type)
    (inspect : string -> option (Inspected PortMap))
    (extractPorts : PortMap -> gmap string string)
    (getStoredConfig : string -> gmap string string -> option StoredConfig)
    (ev : Message) (m : Monitor) (info : Inspected PortMap) :
  Action ev = "start" -> inspect (shortID (ActorID ev)) = Some info ->
  length (opQueue m) < opQueueCap ->
  let m' := handleDockerEvent PortMap inspect extractPorts getStoredConfig ev m in
  (exists st, containers m' !! shortID (ActorID ev) = Some st /\
     csState st = "running" /\ csImage st = iImage info /\
     csPorts st = extractPorts (iPorts info) /\ csLabels st = iLabels info /\
     (forall st0, containers m !! shortID (ActorID ev) = Some st0 ->
        csAppName st = csAppName st0 /\ csInstalled st = csInstalled st0)) /\
  (opQueue m' <> opQueue m <->
     Monitor.shouldInstall (iLabels info) = true \/
     is_Some (getStoredConfig (iImage info) (extractPorts (iPorts info)))) /\
  registry m' = registry m /\ cliLog m' = cliLog m.
Proof.
  intros Ha Hi Hq m'. unfold m', handleDockerEvent. cbv zeta.
  rewrite Ha, Hi. cbn [String.eqb Ascii.eqb Bool.eqb].
  set (id := shortID (ActorID ev)).
  set (st := mkContainerState _ _ (iImage info) "running" _ _ _ _ _).
  set (m1 := setContainers (<[id := st]> (containers m)) m).
  assert (Hst : containers m1 !! id = Some st) by apply lookup_insert_eq.
  assert (Hst' : exists st0, containers m1 !! id = Some st0 /\
     csState st0 = "running" /\ csImage st0 = iImage info /\
     csPorts st0 = extractPorts (iPorts info) /\ csLabels st0 = iLabels info /\
     (forall st1, containers m !! id = Some st1 ->
        csAppName st0 = csAppName st1 /\ csInstalled st0 = csInstalled st1)).
  { exists st. split; [exact Hst|]. unfold st. cbn. do 4 (split; [reflexivity|]).
    intros st1 ->. split; reflexivity. }
  assert (Hq1 : opQueue m1 = opQueue m) by reflexivity.
  assert (Hadd : forall op, opQueue (queueOperation op m1) <> opQueue m).
  { intros op. unfold queueOperation. rewrite Hq1.
    destruct (decide (length (opQueue m) < opQueueCap)); [|lia]. cbn.
    intros E. apply (f_equal length) in E. rewrite length_app in E. cbn in E. lia. }
  destruct (Monitor.shouldInstall (iLabels info)) eqn:Es.
  - destruct (queueOperation_frame
      (mkAppOperation "container_start" "" "" id (index (ActorAttributes ev) "name")
         (iLabels info) None) m1) as (Hc & Hr & _ & Hl).
    rewrite Hc, Hr, Hl. split; [exact Hst'|]. split; [|split; reflexivity].
    split; [by left|]. intros _. apply Hadd.
  - destruct (getStoredConfig (iImage info) (extractPorts (iPorts info))) as [sc|] eqn:Eg.
    + destruct (queueOperation_frame
        (mkAppOperation "container_start" "" "" id (index (ActorAttributes ev) "name")
           (iLabels info) (Some sc)) m1) as (Hc & Hr & _ & Hl).
      rewrite Hc, Hr, Hl. split; [exact Hst'|]. split; [|split; reflexivity].
      split; [by right; eexists|]. intros _. apply Hadd.
    + split; [exact Hst'|]. split; [|split; reflexivity].
      split; [by rewrite Hq1|]. intros [H|H]; [discriminate|by destruct H].
Qed.

Lemma start_event_spec_witness :
  let labels : gmap string string := {[ "watchcow.enable" := "true" ]} in
  let info := mkInspected unit "memos:1" tt labels "bridge" in
  let m := mkMonitor ∅ ∅ [] None [] in
  let ev := mkMessage "start" "0123456789abcdef" {[ "name" := "memos" ]} in
  Action ev = "start" /\
  (fun _ => Some info) (shortID (ActorID ev)) = Some info /\
  length (opQueue m) < opQueueCap /\
  (let m' := handleDockerEvent unit (fun _ => Some info) (fun _ => ∅) (fun _ _ => None) ev m in
   (exists st, containers m' !! shortID (ActorID ev) = Some st /\
      csState st = "running" /\ csImage st = iImage info /\
      csPorts st = (fun _ : unit => ∅ : gmap string string) (iPorts info) /\
      csLabels st = iLabels info /\
      (forall st0, containers m !! shortID (ActorID ev) = Some st0 ->
         csAppName st = csAppName st0 /\ csInstalled st = csInstalled st0)) /\
   (opQueue m' <> opQueue m <->
      Monitor.shouldInstall (iLabels info) = true \/
      is_Some ((fun _ _ => None : option StoredConfig) (iImage info)
                 ((fun _ : unit => ∅ : gmap string string) (iPorts info)))) /\
   registry m' = registry m /\ cliLog m' = cliLog m).
Proof.
  intros labels info m ev.
  assert (H1 : Action ev = "start") by reflexivity.
  assert (H2 : (fun _ => Some info) (shortID (ActorID ev)) = Some info) by reflexivity.
  assert (H3 : length (opQueue m) < opQueueCap) by (cbn; unfold opQueueCap; lia).
  split; [exact H1|]. split; [exact H2|]. split; [exact H3|].
  exact (start_event_spec unit (fun _ => Some info) (fun _ => ∅) (fun _ _ => None) ev m info
           H1 H2 H3).
Defined.

(** TriggerUninstall of a non-empty app name unregisters the app and no
    other, runs the installer's stop and uninstall when an installer is
    present, and clears the app name and installed flag of every tracked
    container recorded under that name, tracking the same containers and
    leaving the others and the queue unchanged; on the empty name it does
    nothing. *)
Theorem TriggerUninstall_spec (appName : string) (m : Monitor) :
  TriggerUninstall "" m = m /\
  (appName <> "" ->
   let m' := TriggerUninstall appName m in
   Get (registry m') appName = None /\
   (forall n, n <> appName -> Get (registry m') n = Get (registry m) n) /\
   (forall id st, containers m' !! id = Some st -> csAppName st <> appName) /\
   (forall id st, containers m !! id = Some st -> csAppName st = appName ->
      exists st', containers m' !! id = Some st' /\ csAppName st' = "" /\
                  csInstalled st' = false /\ csState st' = csState st) /\
   (forall id st, containers m !! id = Some st -> csAppName st <> appName ->
      containers m' !! id = Some st) /\
   (forall id, containers m !! id = None -> containers m' !! id = None) /\
   opQueue m' = opQueue m /\
   cliLog m' = cliLog m ++
     match installer m with
     | Some _ => [["stop"; appName]; ["uninstall"; appName]]
     | None => []
     end).
Proof.
  split; [reflexivity|]. intros Hn m'.
  assert (Hm' : m' = setContainers (clearAppName appName <$> containers m)
                       (match installer m with
                        | Some _ => runCLI ["uninstall"; appName] (runCLI ["stop"; appName]
                                      (setRegistry (Unregister appName (registry m)) m))
                        | None => setRegistry (Unregister appName (registry m)) m
                        end)).
  { unfold m', TriggerUninstall. destruct (String.eqb_spec appName ""); [contradiction|].
    cbn [installer setRegistry]. by destruct (installer m). }
  assert (Hc : containers m' = clearAppName appName <$> containers m)
    by (rewrite Hm'; by destruct (installer m)).
  assert (Hr : registry m' = Unregister appName (registry m))
    by (rewrite Hm'; by destruct (installer m)).
  split; [rewrite Hr; apply lookup_delete_eq|].
  split; [intros n Hn'; rewrite Hr; by apply lookup_delete_ne|].
  split.
  { intros id st. rewrite Hc, lookup_fmap_Some. intros [st0 [<- _]].
    unfold clearAppName. destruct (String.eqb_spec (csAppName st0) appName); cbn.
    - intros E. by apply Hn.
    - exact n. }
  split.
  { intros id st Hs Ha. rewrite Hc, lookup_fmap, Hs. cbn. eexists. split; [reflexivity|].
    unfold clearAppName. rewrite Ha, String.eqb_refl. cbn. done. }
  split.
  { intros id st Hs Ha. rewrite Hc, lookup_fmap, Hs. cbn. f_equal.
    unfold clearAppName. by destruct (String.eqb_spec (csAppName st) appName). }
  split.
  { intros id Hs. by rewrite Hc, lookup_fmap, Hs. }
  rewrite Hm'. split; destruct (installer m); cbn; rewrite ?app_nil_r, <- ?app_assoc; reflexivity.
Qed.

Lemma TriggerUninstall_spec_witness :
  let st := mkContainerState "c1" "memos" "memos:1" "running" ∅ ∅ "watchcow.memos" "watchcow.memos" true in
  let m := mkMonitor {[ "c1" := st ]} ∅ [] (Some "appcenter-cli") [] in
  "watchcow.memos" <> "" /\
  Get (registry (TriggerUninstall "watchcow.memos" m)) "watchcow.memos" = None.
Proof.
  intros st m. assert (H : "watchcow.memos" <> "") by discriminate.
  split; [exact H|]. exact (proj1 (proj2 (TriggerUninstall_spec "watchcow.memos" m) H)).
Defined.

(** An app registered from stored config is registered as running under
    the config's app name, and looking one of its entries up by name
    finds the conversion of the first stored entry with that name. *)
Theorem registerAppFromStoredConfig_spec (storedCfg : StoredConfig)
    (containerID containerName : string) (m : Monitor) :
  exists a,
    Get (registry (registerAppFromStoredConfig storedCfg containerID containerName m))
      (scAppName storedCfg) = Some a /\
    aStatus a = "running" /\ aContainerID a = containerID /\
    (forall n, GetEntry a n =
       fromStoredEntry <$> find (fun e => String.eqb (seName e) n) (scEntries storedCfg)) /\
    (forall n, n <> scAppName storedCfg ->
       Get (registry (registerAppFromStoredConfig storedCfg containerID containerName m)) n
       = Get (registry m) n).
Proof.
  eexists. split; [apply lookup_insert_eq|]. split; [reflexivity|]. split; [reflexivity|].
  split.
  - intros n. unfold GetEntry. cbn [aEntries].
    induction (scEntries storedCfg) as [|e l IH]; [reflexivity|]. cbn.
    destruct (String.eqb (seName e) n); [reflexivity|exact IH].
  - intros n Hn. by apply lookup_insert_ne.
Qed.

(** An app registered from labels is registered as running under the
    given name, with the display_name label as display name or the
    container name when that label is empty or absent; its entries are
    the default entry when the labels configure one, followed by one
    entry per entry name visited, and when the service_port label is set
    every one of them has a port. *)
Theorem registerAppFromLabels_spec (buildIconURL : string -> string)
    (appName containerID containerName : string) (labels : gmap string string)
    (nit : list string) (m : Monitor) :
  exists a,
    Get (registry (registerAppFromLabels buildIconURL appName containerID containerName
                     labels nit m)) appName = Some a /\
    aStatus a = "running" /\
    aDisplayName a = (if String.eqb (index labels "watchcow.display_name") ""
                      then containerName else index labels "watchcow.display_name") /\
    map eName (aEntries a) = (if EntryParsing.hasDefaultEntry labels then [""] else []) ++ nit /\
    (index labels "watchcow.service_port" <> "" -> Forall (fun e => ePort e <> "") (aEntries a)).
Proof.
  eexists. split; [apply lookup_insert_eq|]. split; [reflexivity|]. split; [reflexivity|].
  cbn [aEntries]. split.
  - rewrite map_map. etransitivity; [|apply EntryFacts.ParseEntries_names].
    apply map_ext. reflexivity.
  - intros Hp. apply Forall_forall. intros e He.
    apply list_elem_of_In, in_map_iff in He as [e0 [<- He0]].
    unfold EntryParsing.ParseEntries in He0. apply in_app_or in He0.
    cbn. assert (Hw : forall e1, ePort (EntryParsing.withPort (index labels "watchcow.service_port") e1) <> "").
    { intros e1. unfold EntryParsing.withPort.
      destruct (String.eqb_spec (ePort e1) ""); cbn; [exact Hp|exact n]. }
    destruct He0 as [He0|He0].
    + destruct (EntryParsing.hasDefaultEntry labels); [|contradiction].
      destruct He0 as [<-|[]]. apply Hw.
    + apply in_map_iff in He0 as [n [<- _]]. apply Hw.
Qed.

End MonitorEventFacts.

(* ------------------------------------------------------------------ *)
(** ** The configuration store: Set, Delete, Has, GetByKey and a full
    save *)

Module StoreOpsFacts.
Import Storage StorageOps StoreCopyFacts StoreDiskFacts.

Lemma Has_observe (s : DashboardStorage) (h : Heap) (key : string) :
  observe s h key <> None -> Has s key = true.
Proof.
  rewrite observe_deref. unfold Has. by destruct (configs s !! key).
Qed.

Lemma Set_eq (s : DashboardStorage) (h : Heap) (filePath : string) (p : nat)
    (cfg : StoredConfig) :
  cfgs h !! p = Some cfg ->
  Set_ s h filePath p =
  Some (mkDashboardStorage (<[Key cfg := p]> (configs s)),
        saveAtomic filePath (snapshot (mkDashboardStorage (<[Key cfg := p]> (configs s))) h)).
Proof. intros Hc. unfold Set_. by rewrite Hc. Qed.

(** After Set of a pointer to a struct, a Get of the struct's key reads
    that struct and its entries and Has reports the key, while every
    other key reads and reports as before. *)
Theorem Set_then_Get (s : DashboardStorage) (h : Heap) (filePath : string) (p : nat)
    (cfg : StoredConfig) (s' : DashboardStorage)
    (ops : list (FsOp (StoredConfig * list StoredEntry))) :
  cfgs h !! p = Some cfg -> Set_ s h filePath p = Some (s', ops) ->
  observe s' h (Key cfg) = Some (cfg, sliceElems h (Entries cfg)) /\
  Has s' (Key cfg) = true /\
  (forall k, k <> Key cfg -> observe s' h k = observe s h k /\ Has s' k = Has s k).
Proof.
  intros Hc HS. rewrite (Set_eq _ _ _ _ cfg Hc) in HS. injection HS as <- <-.
  split; [|split].
  - rewrite observe_deref. cbn. rewrite lookup_insert_eq. cbn. unfold deref. by rewrite Hc.
  - unfold Has. cbn. by rewrite lookup_insert_eq.
  - intros k Hk. rewrite !observe_deref. unfold Has. cbn. by rewrite lookup_insert_ne.
Qed.

Definition setEntry : StoredEntry :=
  mkStoredEntry "" "Memos" "http" "5230" "/" "url" true [] false "" "".

Definition setConfig : StoredConfig :=
  mkStoredConfig "memos|5230:5230" "memos" "Memos" "" "1.0" "" (mkSlice (Some 0) 1) ""
    "t0" "t0".

Definition setHeap : Heap := mkHeap {[ 0 := setConfig ]} {[ 0 := [setEntry] ]}.

Lemma Set_then_Get_witness :
  let s := mkDashboardStorage ∅ in
  match Set_ s setHeap "dashboard.gob" 0 with
  | Some (s', ops) =>
      cfgs setHeap !! 0 = Some setConfig /\
      observe s' setHeap (Key setConfig)
        = Some (setConfig, sliceElems setHeap (Entries setConfig))
  | None => False
  end.
Proof.
  intros s. assert (Hc : cfgs setHeap !! 0 = Some setConfig) by reflexivity.
  destruct (Set_ s setHeap "dashboard.gob" 0) as [[s' ops]|] eqn:E.
  - split; [exact Hc|]. exact (proj1 (Set_then_Get s setHeap _ 0 setConfig s' ops Hc E)).
  - vm_compute in E. discriminate.
Defined.

(** After Delete of a key, a Get of that key finds nothing, Has and
    GetByKey report it absent, and every other key reads as before. *)
Theorem Delete_then_Get (s : DashboardStorage) (h : Heap) (filePath key : string) :
  let s' := (Delete s h filePath key).1 in
  observe s' h key = None /\ Has s' key = false /\ GetByKey s' h key = None /\
  (forall k, k <> key -> observe s' h k = observe s h k /\ Has s' k = Has s k).
Proof.
  cbn. split; [|split; [|split]].
  - rewrite observe_deref. cbn. by rewrite lookup_delete_eq.
  - unfold Has. cbn. by rewrite lookup_delete_eq.
  - unfold GetByKey. cbn. by rewrite lookup_delete_eq.
  - intros k Hk. rewrite !observe_deref. unfold Has. cbn. by rewrite lookup_delete_ne.
Qed.

Section Disk.

Context {V : Type}.

Lemma runOps_saveAtomic (d : Disk V) (path : string) (m : gmap string V) :
  runOps d (saveAtomic path m) = <[path := encode m]> (delete (tmpPath path)
                                    (<[tmpPath path := encode m]> d)).
Proof.
  rewrite <- (take_ge (saveAtomic path m) (S (length (encode m) + 3)))
    by (unfold saveAtomic; rewrite !length_app, length_map; cbn; lia).
  rewrite runOps_save_after. cbn [take runOps foldl applyOp].
  by rewrite lookup_insert_eq.
Qed.

Lemma runOps_saveDirect (d : Disk V) (path : string) (m : gmap string V) :
  runOps d (saveDirect path m) = <[path := encode m]> d.
Proof.
  unfold saveDirect. rewrite !runOps_app. cbn [runOps foldl applyOp].
  rewrite (runOps_writes _ _ []) by apply lookup_insert_eq.
  cbn. by rewrite insert_insert_eq.
Qed.

End Disk.

(** A save that runs to completion, in either version of the store,
    leaves a disk from which load returns exactly the saved map, whatever
    the disk held before; the atomic version leaves no .tmp file and its
    load changes nothing on disk. *)
Theorem save_then_load (V : Type) (d : Disk V) (path : string) (m : gmap string V) :
  loadAtomic (runOps d (saveAtomic path m)) path = (runOps d (saveAtomic path m), Some m) /\
  runOps d (saveAtomic path m) !! tmpPath path = None /\
  loadDirect (runOps d (saveDirect path m)) path = (runOps d (saveDirect path m), Some m).
Proof.
  assert (Ht : runOps d (saveAtomic path m) !! tmpPath path = None).
  { rewrite runOps_saveAtomic, lookup_insert_ne by (apply not_eq_sym, tmpPath_ne).
    apply lookup_delete_eq. }
  split; [|split; [exact Ht|]].
  - unfold loadAtomic. rewrite Ht. f_equal. unfold tryLoadFrom.
    rewrite runOps_saveAtomic, lookup_insert_eq. apply decode_encode.
  - unfold loadDirect. f_equal. unfold tryLoadFrom.
    rewrite runOps_saveDirect, lookup_insert_eq. apply decode_encode.
Qed.

(** Once the save of a Set has completed, loading the file yields the
    map of all stored configs, with the config just set under its key;
    once the save of a Delete has completed, the loaded map lacks the
    deleted key. *)
Theorem Set_Delete_persist (s : DashboardStorage) (h : Heap) (filePath key : string) (p : nat)
    (cfg : StoredConfig) (s' : DashboardStorage)
    (ops : list (FsOp (StoredConfig * list StoredEntry)))
    (d : Disk (StoredConfig * list StoredEntry)) :
  (cfgs h !! p = Some cfg -> Set_ s h filePath p = Some (s', ops) ->
   exists loaded, (loadAtomic (runOps d ops) filePath).2 = Some loaded /\
     loaded = snapshot s' h /\
     loaded !! Key cfg = Some (cfg, sliceElems h (Entries cfg))) /\
  (exists loaded,
     (loadAtomic (runOps d (Delete s h filePath key).2) filePath).2 = Some loaded /\
     loaded = snapshot (Delete s h filePath key).1 h /\ loaded !! key = None).
Proof.
  split.
  - intros Hc HS. rewrite (Set_eq _ _ _ _ cfg Hc) in HS. injection HS as <- <-.
    eexists. split; [rewrite (proj1 (save_then_load _ d filePath _)); reflexivity|].
    split; [reflexivity|]. unfold snapshot. rewrite lookup_omap. cbn.
    rewrite lookup_insert_eq. cbn. unfold deref. by rewrite Hc.
  - unfold Delete. cbn [fst snd].
    eexists. split; [rewrite (proj1 (save_then_load _ d filePath _)); reflexivity|].
    split; [reflexivity|]. unfold snapshot. rewrite lookup_omap. cbn.
    by rewrite lookup_delete_eq.
Qed.

Lemma Set_Delete_persist_witness :
  let s := mkDashboardStorage ∅ in
  match Set_ s setHeap "dashboard.gob" 0 with
  | Some (s', ops) =>
      cfgs setHeap !! 0 = Some setConfig /\
      exists loaded, (loadAtomic (runOps ∅ ops) "dashboard.gob").2 = Some loaded /\
        loaded = snapshot s' setHeap /\
        loaded !! Key setConfig = Some (setConfig, sliceElems setHeap (Entries setConfig))
  | None => False
  end.
Proof.
  intros s. assert (Hc : cfgs setHeap !! 0 = Some setConfig) by reflexivity.
  destruct (Set_ s setHeap "dashboard.gob" 0) as [[s' ops]|] eqn:E.
  - split; [exact Hc|].
    exact (proj1 (Set_Delete_persist s setHeap "dashboard.gob" "" 0 setConfig s' ops ∅) Hc E).
  - vm_compute in E. discriminate.
Defined.

(** GetByKey finds a config exactly when Get does.  It then gives the
    monitor a config with the same app name, display name, description,
    version, maintainer and icon, whose entries are the stored entries in
    order, each with every field copied (name, title, protocol, port,
    path, ui type, all_users, file types, no_display, redirect, icon). *)
Theorem GetByKey_spec (s : DashboardStorage) (h : Heap) (key : string) :
  (GetByKey s h key = None <-> observe s h key = None) /\
  (forall cfg es, observe s h key = Some (cfg, es) ->
   exists r, GetByKey s h key = Some r /\
     MonitorState.scAppName r = AppName cfg /\
     MonitorState.scDisplayName r = DisplayName cfg /\
     MonitorState.scDescription r = Description cfg /\
     MonitorState.scVersion r = Version cfg /\
     MonitorState.scMaintainer r = Maintainer cfg /\
     MonitorState.scIconBase64 r = IconBase64 cfg /\
     length (MonitorState.scEntries r) = length es /\
     forall i e, es !! i = Some e ->
       exists d, MonitorState.scEntries r !! i = Some d /\
         MonitorState.seName d = Name e /\
         MonitorState.seTitle d = Title e /\
         MonitorState.seProtocol d = Protocol e /\
         MonitorState.sePort d = Port e /\
         MonitorState.sePath d = Path e /\
         MonitorState.seUIType d = UIType e /\
         MonitorState.seAllUsers d = AllUsers e /\
         MonitorState.seFileTypes d = FileTypes e /\
         MonitorState.seNoDisplay d = NoDisplay e /\
         MonitorState.seRedirect d = Redirect e /\
         MonitorState.seIconBase64 d = EntryIconBase64 e).
Proof.
  rewrite observe_deref. unfold GetByKey, deref.
  destruct (configs s !! key) as [p|]; cbn; [|split; [done|discriminate]].
  destruct (cfgs h !! p) as [cfg|]; cbn; [|split; [done|discriminate]].
  split; [split; discriminate|].
  intros cfg' es [= <- <-]. eexists. split; [reflexivity|]. cbn.
  do 6 (split; [reflexivity|]). split; [apply length_map|].
  intros i e Hi. exists (toDockerEntry e). split; [by rewrite list_lookup_fmap, Hi|].
  repeat split.
Qed.

End StoreOpsFacts.

(* ------------------------------------------------------------------ *)
(** ** The package generator: environment, icons, app names *)

Module GeneratorOpsFacts.
Import Generator GeneratorOps StringFacts AppNameFacts.

Lemma skipEnv_iff (e : string) (bl : list string) :
  skipEnv e bl = true <-> exists b, b ∈ bl /\ hasPrefix e b = true.
Proof.
  induction bl as [|b bl IH]; cbn.
  - split; [discriminate|]. intros (b & Hb & _). by apply elem_of_nil in Hb.
  - destruct (hasPrefix e b) eqn:E.
    + split; [|reflexivity]. intros _. exists b. split; [apply elem_of_cons; by left|exact E].
    + rewrite IH. split.
      * intros (b' & Hb' & H). exists b'. split; [apply elem_of_cons; by right|exact H].
      * intros (b' & Hb' & H). apply elem_of_cons in Hb' as [->|Hb']; [congruence|].
        by exists b'.
Qed.

(** filterEnvironment keeps, in their order, exactly the variables that
    start with none of PATH=, HOME=, USER=, HOSTNAME=, PWD=, SHLVL=. *)
Theorem filterEnvironment_spec (env : list string) :
  filterEnvironment env `sublist_of` env /\
  (forall e, e ∈ filterEnvironment env <->
     e ∈ env /\ Forall (fun b => hasPrefix e b = false) blacklist).
Proof.
  assert (Hf : forall e, Forall (fun b => hasPrefix e b = false) blacklist <->
                         skipEnv e blacklist = false).
  { intros e. rewrite Forall_forall. split.
    - intros H. destruct (skipEnv e blacklist) eqn:E; [|reflexivity].
      apply skipEnv_iff in E as (b & Hb & Hp). by rewrite (H b Hb) in Hp.
    - intros H b Hb. destruct (hasPrefix e b) eqn:E; [|reflexivity].
      assert (skipEnv e blacklist = true) by (apply skipEnv_iff; by exists b). congruence. }
  split.
  - induction env as [|e env IH]; cbn [filterEnvironment]; [constructor|].
    destruct (skipEnv e blacklist); [by constructor|by constructor].
  - intros e. rewrite Hf. induction env as [|x env IH]; cbn [filterEnvironment].
    + split; [intros H; by apply elem_of_nil in H|]. intros [H _]. by apply elem_of_nil in H.
    + destruct (skipEnv x blacklist) eqn:Ex.
      * rewrite IH, elem_of_cons. split; [tauto|]. intros [[->|H1] H2]; [congruence|tauto].
      * rewrite !elem_of_cons, IH. split; [|tauto]. intros [->|H]; [tauto|tauto].
Qed.

Lemma append_empty_l (s : string) : "" +:+ s = s.
Proof. reflexivity. Qed.

Lemma splitAllGo_cut (a b cur : string) (sep : ascii) :
  hasChar a sep = false ->
  Redirect.splitAllGo (a +:+ String sep "" +:+ b) sep cur
  = (cur +:+ a) :: Redirect.splitAllGo b sep "".
Proof.
  induction a as [|c a IH] in cur |- *; intros H.
  - change (Redirect.splitAllGo (String sep b) sep cur = (cur +:+ "") :: Redirect.splitAllGo b sep "").
    cbn [Redirect.splitAllGo]. by rewrite Ascii.eqb_refl, KeyFacts.append_empty_r.
  - change (Redirect.splitAllGo (String c (a +:+ String sep "" +:+ b)) sep cur
            = (cur +:+ String c a) :: Redirect.splitAllGo b sep "").
    cbn [hasChar] in H. apply orb_false_iff in H as [H1 H2].
    cbn [Redirect.splitAllGo]. rewrite Ascii.eqb_sym, H1, IH by exact H2.
    by rewrite string_app_assoc.
Qed.

Lemma splitAllGo_none (a cur : string) (sep : ascii) :
  hasChar a sep = false -> Redirect.splitAllGo a sep cur = [cur +:+ a].
Proof.
  induction a as [|c a IH] in cur |- *; intros H.
  - cbn. by rewrite KeyFacts.append_empty_r.
  - cbn [hasChar] in H. apply orb_false_iff in H as [H1 H2].
    cbn [Redirect.splitAllGo]. rewrite Ascii.eqb_sym, H1, IH by exact H2.
    by rewrite string_app_assoc.
Qed.

Lemma splitAllGo_last (a b cur : string) (sep : ascii) :
  exists l, Redirect.splitAllGo (a +:+ String sep "" +:+ b) sep cur
            = l ++ Redirect.splitAllGo b sep "".
Proof.
  induction a as [|c a IH] in cur |- *.
  - exists [cur]. change (Redirect.splitAllGo (String sep b) sep cur = [cur] ++ Redirect.splitAllGo b sep "").
    cbn [Redirect.splitAllGo]. by rewrite Ascii.eqb_refl.
  - change (exists l, Redirect.splitAllGo (String c (a +:+ String sep "" +:+ b)) sep cur
                      = l ++ Redirect.splitAllGo b sep "").
    cbn [Redirect.splitAllGo]. destruct (Ascii.eqb c sep).
    + destruct (IH "") as [l ->]. by exists (cur :: l).
    + apply IH.
Qed.

(** buildIconURLFromImage looks the icon up under the image's repository
    name: the registry and namespace path before the last ['/'] and the
    tag after the first [':'] are dropped. *)
Theorem buildIconURLFromImage_name (buildIconURL : string -> string) (path name tag : string) :
  hasChar name "/" = false -> hasChar name ":" = false -> hasChar tag "/" = false ->
  buildIconURLFromImage buildIconURL name = buildIconURL name /\
  buildIconURLFromImage buildIconURL (name +:+ ":" +:+ tag) = buildIconURL name /\
  buildIconURLFromImage buildIconURL (path +:+ "/" +:+ name +:+ ":" +:+ tag) = buildIconURL name.
Proof.
  intros Hn Hc Ht.
  assert (Htag : hasChar (name +:+ ":" +:+ tag) "/" = false).
  { clear Hc. induction name as [|x name IH]; [exact Ht|].
    cbn [hasChar] in Hn |- *. apply orb_false_iff in Hn as [H1 H2].
    change (hasChar (String x (name +:+ ":" +:+ tag)) "/" = false).
    cbn [hasChar]. by rewrite H1, IH. }
  assert (Hhead : default "" (head (Redirect.splitAll (name +:+ ":" +:+ tag) ":")) = name).
  { unfold Redirect.splitAll. change (name +:+ ":" +:+ tag) with (name +:+ String ":" "" +:+ tag).
    by rewrite splitAllGo_cut. }
  split; [|split].
  - unfold buildIconURLFromImage, Redirect.splitAll.
    rewrite (splitAllGo_none name "" "/") by exact Hn. cbn [last from_option id].
    rewrite ?append_empty_l.
    rewrite (splitAllGo_none name "" ":") by exact Hc. reflexivity.
  - unfold buildIconURLFromImage, Redirect.splitAll. unfold Redirect.splitAll in Hhead. cbv zeta.
    rewrite (splitAllGo_none _ "" "/") by exact Htag. cbn [last from_option id].
    rewrite ?append_empty_l. by rewrite Hhead.
  - unfold buildIconURLFromImage, Redirect.splitAll. unfold Redirect.splitAll in Hhead. cbv zeta.
    change (path +:+ "/" +:+ ?r) with (path +:+ String "/" "" +:+ r).
    destruct (splitAllGo_last path (name +:+ ":" +:+ tag) "" "/") as [l ->].
    rewrite (splitAllGo_none _ "" "/") by exact Htag. rewrite last_snoc. cbn [from_option id].
    rewrite ?append_empty_l. by rewrite Hhead.
Qed.

Lemma buildIconURLFromImage_name_witness :
  hasChar "memos" "/" = false /\ hasChar "memos" ":" = false /\ hasChar "stable" "/" = false /\
  buildIconURLFromImage (fun n => n +:+ ".png") ("ghcr.io/usememos" +:+ "/" +:+ "memos" +:+ ":" +:+ "stable")
    = "memos.png".
Proof.
  assert (H1 : hasChar "memos" "/" = false) by reflexivity.
  assert (H2 : hasChar "memos" ":" = false) by reflexivity.
  assert (H3 : hasChar "stable" "/" = false) by reflexivity.
  split; [exact H1|]. split; [exact H2|]. split; [exact H3|].
  exact (proj2 (proj2 (buildIconURLFromImage_name (fun n => n +:+ ".png") "ghcr.io/usememos"
                         "memos" "stable" H1 H2 H3))).
Defined.

Lemma sanitizeChar_id (c : ascii) : appNameChar c = true -> sanitizeChar c = c.
Proof. destruct c as [[] [] [] [] [] [] [] []]; vm_compute; congruence. Qed.

(** sanitizeAppName only ever returns bytes in [a-z0-9-], and applying it
    to its own result changes nothing. *)
Theorem sanitizeAppName_idem (name : string) :
  Forall (fun c => appNameChar c = true) (String.list_ascii_of_string (sanitizeAppName name)) /\
  sanitizeAppName (sanitizeAppName name) = sanitizeAppName name.
Proof.
  assert (Hk : Forall (fun c => appNameChar c = true)
                 (String.list_ascii_of_string (sanitizeAppName name)))
    by apply keepAppNameChars_only.
  split; [exact Hk|].
  rewrite (sanitizeAppName_chars (sanitizeAppName name)).
  rewrite <- (String.string_of_list_ascii_of_string (sanitizeAppName name)) at 2.
  f_equal. induction (String.list_ascii_of_string (sanitizeAppName name)) as [|c l IH];
    [reflexivity|].
  apply Forall_cons in Hk as [Hc Hl]. cbn. rewrite sanitizeChar_id by exact Hc.
  rewrite Hc. f_equal. by apply IH.
Qed.

End GeneratorOpsFacts.


(* ------------------------------------------------------------------ *)
(** ** File types: strings.TrimSpace and the file_types list *)

Module FileTypeFacts.
Import EntryParsing.

Lemma stripPrefixL_app (p l l' : list ascii) : stripPrefixL p l = Some l' -> l = p ++ l'.
Proof.
  revert l. induction p as [|a p IH]; intros l H; cbn in H; [by injection H as ->|].
  destruct l as [|b l]; [discriminate|].
  destruct (Ascii.eqb_spec a b) as [->|]; [|discriminate]. cbn. f_equal. by apply IH.
Qed.

Lemma stripPrefixL_ext (p l l' q : list ascii) :
  stripPrefixL p l = Some l' -> stripPrefixL p (l ++ q) = Some (l' ++ q).
Proof.
  revert l. induction p as [|a p IH]; intros l H; cbn in H |- *; [by injection H as ->|].
  destruct l as [|b l]; [discriminate|]. cbn.
  destruct (Ascii.eqb a b); [by apply IH|discriminate].
Qed.

Lemma stripRune_app (rs : list (list ascii)) (l l'' : list ascii) :
  stripRune rs l = Some l'' -> exists r, r ∈ rs /\ l = r ++ l''.
Proof.
  induction rs as [|r rs IH]; cbn; [discriminate|].
  destruct (stripPrefixL r l) as [l'|] eqn:E.
  - intros [= <-]. exists r. split; [apply elem_of_cons; by left|]. by apply stripPrefixL_app.
  - intros H. destruct (IH H) as (r' & Hr & ->). exists r'.
    split; [apply elem_of_cons; by right|reflexivity].
Qed.

Lemma stripRune_ext (rs : list (list ascii)) (l q : list ascii) :
  stripRune rs l <> None -> stripRune rs (l ++ q) <> None.
Proof.
  induction rs as [|r rs IH]; cbn; [done|].
  destruct (stripPrefixL r l) as [l'|] eqn:E.
  - intros _. by rewrite (stripPrefixL_ext _ _ _ q E).
  - intros H. destruct (stripPrefixL r (l ++ q)); [discriminate|]. by apply IH.
Qed.

(** A byte list that starts with no white space. *)
Definition stable (rs : list (list ascii)) (l : list ascii) : Prop :=
  match l with
  | [] => True
  | c :: _ => isSpace c = false /\ stripRune rs l = None
  end.

Lemma dropSpaceL_stable (rs : list (list ascii)) (fuel : nat) (l : list ascii) :
  Forall (fun r => r <> []) rs -> length l <= fuel -> stable rs (dropSpaceL rs fuel l).
Proof.
  intros Hne. revert l. induction fuel as [|fuel IH]; intros l Hl.
  - destruct l; [exact I|cbn in Hl; lia].
  - destruct l as [|c l]; [exact I|]. cbn [dropSpaceL].
    destruct (isSpace c) eqn:Hs; [apply IH; cbn in Hl; lia|].
    destruct (stripRune rs (c :: l)) as [l''|] eqn:Hr; [|by split].
    apply IH. destruct (stripRune_app _ _ _ Hr) as (r & Hin & Heq).
    rewrite Forall_forall in Hne. specialize (Hne r Hin).
    destruct r as [|x r]; [done|].
    assert (length (c :: l) = S (length r + length l'')) as HL by (rewrite Heq; cbn; by rewrite length_app).
    cbn in Hl, HL. lia.
Qed.

Lemma dropSpaceL_suffix (rs : list (list ascii)) (fuel : nat) (l : list ascii) :
  exists p, l = p ++ dropSpaceL rs fuel l.
Proof.
  revert l. induction fuel as [|fuel IH]; intros l; [by exists []|].
  destruct l as [|c l]; [by exists []|]. cbn [dropSpaceL].
  destruct (isSpace c).
  - destruct (IH l) as [p Hp]. exists (c :: p). cbn. by f_equal.
  - destruct (stripRune rs (c :: l)) as [l''|] eqn:Hr; [|by exists []].
    destruct (stripRune_app _ _ _ Hr) as (r & _ & Heq).
    destruct (IH l'') as [p Hp]. exists (r ++ p). by rewrite Heq, <- app_assoc, <- Hp.
Qed.

Lemma dropSpaceL_id (rs : list (list ascii)) (fuel : nat) (l : list ascii) :
  stable rs l -> dropSpaceL rs fuel l = l.
Proof.
  destruct fuel as [|fuel]; [done|]. destruct l as [|c l]; [done|].
  intros [Hs Hr]. cbn [dropSpaceL]. by rewrite Hs, Hr.
Qed.

Lemma stable_prefix (rs : list (list ascii)) (p q : list ascii) :
  stable rs (p ++ q) -> stable rs p.
Proof.
  destruct p as [|c p]; [done|]. intros [Hs Hr]. split; [exact Hs|].
  destruct (stripRune rs (c :: p)) eqn:E; [|done].
  exfalso. apply (stripRune_ext rs (c :: p) q); [by rewrite E|exact Hr].
Qed.

Lemma spaceRunes_nonempty : Forall (fun r => r <> []) spaceRunes.
Proof. vm_compute. repeat constructor; discriminate. Qed.

Lemma revRunes_nonempty : Forall (fun r => r <> []) (map (@rev ascii) spaceRunes).
Proof. vm_compute. repeat constructor; discriminate. Qed.

Lemma length_list_ascii (s : string) : String.length s = length (String.list_ascii_of_string s).
Proof. induction s as [|c s IH]; cbn; [done|by rewrite IH]. Qed.

(** The bytes trimSpace keeps: a contiguous part of its argument, from
    which no white space can be trimmed at either end. *)
Lemma trimSpace_parts (s : string) :
  exists a b, String.list_ascii_of_string s
              = a ++ String.list_ascii_of_string (trimSpace s) ++ b /\
    stable spaceRunes (String.list_ascii_of_string (trimSpace s)) /\
    stable (map (@rev ascii) spaceRunes) (rev (String.list_ascii_of_string (trimSpace s))).
Proof.
  unfold trimSpace.
  set (l := dropSpaceL spaceRunes (String.length s) (String.list_ascii_of_string s)).
  set (r := dropSpaceL (map (@rev ascii) spaceRunes) (length l) (rev l)).
  rewrite String.list_ascii_of_string_of_list_ascii.
  destruct (dropSpaceL_suffix spaceRunes (String.length s) (String.list_ascii_of_string s))
    as [p1 Hp1].
  destruct (dropSpaceL_suffix (map (@rev ascii) spaceRunes) (length l) (rev l)) as [p2 Hp2].
  fold l in Hp1. fold r in Hp2.
  assert (Hl : l = rev r ++ rev p2) by (rewrite <- rev_app_distr, <- Hp2; by rewrite rev_involutive).
  exists p1, (rev p2). split; [by rewrite Hp1, Hl|]. split.
  - apply (stable_prefix _ _ (rev p2)). rewrite <- Hl.
    apply dropSpaceL_stable; [exact spaceRunes_nonempty|by rewrite length_list_ascii].
  - rewrite rev_involutive. apply dropSpaceL_stable; [exact revRunes_nonempty|].
    by rewrite length_rev.
Qed.

Lemma trimSpace_idem (s : string) : trimSpace (trimSpace s) = trimSpace s.
Proof.
  destruct (trimSpace_parts s) as (a & b & _ & H1 & H2).
  set (t := trimSpace s) in *.
  unfold trimSpace at 1.
  rewrite (dropSpaceL_id _ _ _ H1), (dropSpaceL_id _ _ _ H2), rev_involutive.
  apply String.string_of_list_ascii_of_string.
Qed.

Lemma hasChar_list (s : string) (c : ascii) :
  hasChar s c = existsb (Ascii.eqb c) (String.list_ascii_of_string s).
Proof. induction s as [|d s IH]; cbn; [done|by rewrite IH]. Qed.

Lemma hasChar_app (a b : string) (c : ascii) :
  hasChar (a +:+ b) c = hasChar a c || hasChar b c.
Proof.
  induction a as [|d a IH]; [done|].
  change (String d a +:+ b) with (String d (a +:+ b)). cbn [hasChar].
  by rewrite IH, orb_assoc.
Qed.

Lemma splitAllGo_nosep (s cur : string) (sep : ascii) :
  hasChar cur sep = false -> Forall (fun t => hasChar t sep = false) (Redirect.splitAllGo s sep cur).
Proof.
  revert cur. induction s as [|c s IH]; intros cur Hc; cbn.
  - by constructor.
  - destruct (Ascii.eqb_spec c sep) as [->|Hne].
    + constructor; [exact Hc|by apply IH].
    + apply IH. rewrite hasChar_app, Hc. cbn.
      destruct (Ascii.eqb_spec sep c) as [->|]; [done|reflexivity].
Qed.

(** The file types parseEntry reads from a file_types label are never
    empty, never contain a comma, and have no white space left at either
    end (trimming them again changes nothing), Unicode white space
    included. *)
Theorem parseFileTypes_spec (ft : string) :
  forall t, t ∈ parseFileTypes ft -> t <> "" /\ hasChar t "," = false /\ trimSpace t = t.
Proof.
  intros t Ht. unfold parseFileTypes in Ht.
  apply list_elem_of_filter in Ht as [Hne Hin].
  apply list_elem_of_In, in_map_iff in Hin as (piece & <- & Hp).
  split; [by destruct (String.eqb_spec (trimSpace piece) "")|]. split.
  - pose proof (splitAllGo_nosep ft "" "," eq_refl) as Hall.
    rewrite Forall_forall in Hall. specialize (Hall piece (proj2 (list_elem_of_In _ _) Hp)).
    destruct (trimSpace_parts piece) as (a & b & Heq & _).
    rewrite hasChar_list in Hall |- *. rewrite Heq, !existsb_app in Hall.
    by apply orb_false_iff in Hall as [_ [Hm _]%orb_false_iff].
  - apply trimSpace_idem.
Qed.

Lemma parseFileTypes_spec_witness :
  let ft := String.string_of_list_ascii
              [" "; "."; "m"; "d"; ","; ","; ascii_of_nat 194; ascii_of_nat 160; "."; "t"; "x"; "t"]%char in
  ".txt" ∈ parseFileTypes ft /\
  (".txt" <> "" /\ hasChar ".txt" "," = false /\ trimSpace ".txt" = ".txt").
Proof.
  intros ft.
  assert (E : parseFileTypes ft = [".md"; ".txt"]) by (vm_compute; reflexivity).
  assert (H : ".txt" ∈ parseFileTypes ft).
  { rewrite E. apply elem_of_cons. right. apply elem_of_cons. by left. }
  split; [exact H|]. exact (parseFileTypes_spec ft ".txt" H).
Defined.

End FileTypeFacts.
